(** * LinkedIn-Bot: a shallow embedding of [linkedinBot.py]

    The development follows the layout of the source file:

    - [PyStr]: the operations of Python's [str] and [re] that the bot uses
      ([str.strip], [str.split], [str.join], the [in] test, [re.sub]);
    - [Soup]: the part of a BeautifulSoup tree that the section extractors
      read ([find], [find_all], [.text], [.get]);
    - the text normaliser [extract_text_only] and the section extractors
      [get_about], [get_experience], [get_projects], [get_certification];
    - [get_basic_details] and the crawl loop [get_data_from_google] over an
      explicit description of what the browser driver answers.

    Text is modelled by [string]; a character stands for the code point of
    the same number (0..255).  Exceptions are modelled by the [result] type:
    a Python function that can raise returns [Raise e].

    The functions are modelled as they run once the module is loaded and
    [Options] is imported: the return annotation of [extract_text_only],
    the missing import and the extra keyword argument of the call under
    [__main__] are left aside. *)

From Stdlib Require Import String Ascii List Bool Arith NArith Lia.
Import ListNotations.
Open Scope string_scope.
Set Warnings "-register-all".

(** ** Exceptions *)

Inductive exn : Type :=
| AttributeError      (* [None.text] *)
| IndexError          (* list index out of range *)
| ReError             (* [re.error]: the pattern does not compile *)
| TypeError           (* [x in None] *)
| NoSuchElementException
| TimeoutException
| WebDriverException. (* any other failure of a driver call *)

Inductive result (A : Type) : Type :=
| Ok (a : A)
| Raise (e : exn).
Arguments Ok {A} a.
Arguments Raise {A} e.

Definition bind {A B : Type} (r : result A) (k : A -> result B) : result B :=
  match r with
  | Ok a => k a
  | Raise e => Raise e
  end.

Notation "x <- r ;; k" := (bind r (fun x => k))
  (at level 61, r at next level, right associativity).

Definition is_ok {A : Type} (r : result A) : bool :=
  match r with Ok _ => true | Raise _ => false end.

(** ** Python strings *)

Module PyStr.

Definition code (c : ascii) : N := N_of_ascii c.

Definition between (lo hi : N) (c : ascii) : bool :=
  ((lo <=? code c) && (code c <=? hi))%N.

(** [str.isalnum] on the code points 0..255: the ASCII letters and digits
    and the letters, digits and numeric characters of the Latin-1 block. *)
Definition is_alnum (c : ascii) : bool :=
  between 48 57 c || between 65 90 c || between 97 122 c
  || between 170 170 c || between 178 179 c || between 181 181 c
  || between 185 186 c || between 188 190 c || between 192 214 c
  || between 216 246 c || between 248 255 c.

(** The class [\w] of [re] for [str] patterns: alphanumerics and the
    underscore (code point 95). *)
Definition is_word (c : ascii) : bool :=
  is_alnum c || between 95 95 c.

(** [str.isspace], the characters that [str.strip] removes. *)
Definition is_space (c : ascii) : bool :=
  between 9 13 c || between 28 32 c || between 133 133 c || between 160 160 c.

Definition is_empty (s : string) : bool :=
  match s with EmptyString => true | String _ _ => false end.

Fixpoint filter (p : ascii -> bool) (s : string) : string :=
  match s with
  | EmptyString => EmptyString
  | String c s' => if p c then String c (filter p s') else filter p s'
  end.

Fixpoint forallb (p : ascii -> bool) (s : string) : bool :=
  match s with
  | EmptyString => true
  | String c s' => p c && forallb p s'
  end.

Fixpoint lstrip (s : string) : string :=
  match s with
  | EmptyString => EmptyString
  | String c s' => if is_space c then lstrip s' else s
  end.

Fixpoint rstrip (s : string) : string :=
  match s with
  | EmptyString => EmptyString
  | String c s' =>
      let r := rstrip s' in
      if is_space c && is_empty r then EmptyString else String c r
  end.

(** [s.strip()] *)
Definition strip (s : string) : string := rstrip (lstrip s).

(** [sep.join(l)] *)
Definition join (sep : string) (l : list string) : string := String.concat sep l.

(** [s.split(sep)] for a one-character separator: never an empty list. *)
Fixpoint split (sep : ascii) (s : string) : list string :=
  match s with
  | EmptyString => [EmptyString]
  | String c s' =>
      if Ascii.eqb c sep then EmptyString :: split sep s'
      else match split sep s' with
           | [] => [String c EmptyString]
           | w :: ws => String c w :: ws
           end
  end.

(** [l[i]] *)
Definition index {A : Type} (l : list A) (i : nat) : result A :=
  match nth_error l i with
  | Some a => Ok a
  | None => Raise IndexError
  end.

(** [s.startswith(p)], returning what follows the prefix. *)
Fixpoint strip_prefix (p s : string) : option string :=
  match p, s with
  | EmptyString, _ => Some s
  | String a p', String b s' =>
      if Ascii.eqb a b then strip_prefix p' s' else None
  | String _ _, EmptyString => None
  end.

(** [p in s] *)
Fixpoint contains (p s : string) : bool :=
  match strip_prefix p s with
  | Some _ => true
  | None =>
      match s with
      | EmptyString => false
      | String _ s' => contains p s'
      end
  end.

(** [s.replace(old, new)] for single characters, which is what
    [re.sub("\n", ".", s)] does. *)
Fixpoint replace_char (old new : ascii) (s : string) : string :=
  match s with
  | EmptyString => EmptyString
  | String c s' =>
      String (if Ascii.eqb c old then new else c) (replace_char old new s')
  end.

End PyStr.

(** ** The text normaliser *)

(** The argument of [extract_text_only]: a string, or a tuple or list of
    strings. *)
Inductive word_arg : Type :=
| Str (s : string)
| Seq (l : list string).

(** The characters the pattern [[^\w \.\-\+]+] does not match: word
    characters, the space, the period, the hyphen and the plus sign. *)
Definition kept (c : ascii) : bool :=
  PyStr.is_word c
  || Ascii.eqb c " " || Ascii.eqb c "." || Ascii.eqb c "-" || Ascii.eqb c "+".

(** [re.sub(regex, empty, word)] with [regex] the class above, negated and
    repeated: every maximal run of characters of the negated class is
    replaced by nothing, so exactly the [kept] characters survive, in
    order. *)
Definition sub_regex (word : string) : string := PyStr.filter kept word.

Definition extract_text_only (word : word_arg) : string :=
  let word :=
    match word with
    | Seq l => PyStr.join " " l
    | Str s => s
    end in
  let word := sub_regex word in
  let word := PyStr.strip word in
  word.

(** ** The fragment of [re] reached by [re.sub] on the duration text

    The pattern handed to [re.sub] in [get_experience] is a normalised
    text, so it is made of [kept] characters only.  Among those the period
    and the plus sign are special in a pattern: [.] matches any character
    but the line feed, [x+] repeats [x] one or more times (greedy), [x++]
    is the possessive form (CPython 3.11 and later), a plus sign with
    nothing to repeat and a third plus sign in a row are rejected with
    [re.error].  Every other [kept] character matches itself. *)

Module Re.

Inductive atom : Type :=
| Lit (c : ascii)
| AnyChar.

Inductive rep : Type :=
| Once
| Greedy
| Possessive.

Definition item : Type := (atom * rep)%type.

Definition atom_of (c : ascii) : atom :=
  if Ascii.eqb c "." then AnyChar else Lit c.

(** [parse_from prev s]: [prev] is the item read last, which a following
    plus sign may still change. *)
Fixpoint parse_from (prev : item) (s : string) : result (list item) :=
  match s with
  | EmptyString => Ok [prev]
  | String c s' =>
      if Ascii.eqb c "+" then
        match snd prev with
        | Once => parse_from (fst prev, Greedy) s'
        | Greedy => parse_from (fst prev, Possessive) s'
        | Possessive => Raise ReError          (* multiple repeat *)
        end
      else
        items <- parse_from (atom_of c, Once) s' ;;
        Ok (prev :: items)
  end.

(** [re.compile(pattern)] *)
Definition compile (pattern : string) : result (list item) :=
  match pattern with
  | EmptyString => Ok []
  | String c p' =>
      if Ascii.eqb c "+" then Raise ReError    (* nothing to repeat *)
      else parse_from (atom_of c, Once) p'
  end.

Definition atom_matches (a : atom) (c : ascii) : bool :=
  match a with
  | Lit x => Ascii.eqb x c
  | AnyChar => negb (Ascii.eqb c "010")
  end.

(** One or more [a], the longest run first, giving characters back until
    the continuation [k] matches. *)
Fixpoint match_greedy (a : atom) (k : string -> option string) (s : string)
  : option string :=
  match s with
  | EmptyString => None
  | String c s' =>
      if atom_matches a c then
        match match_greedy a k s' with
        | Some r => Some r
        | None => k s'
        end
      else None
  end.

Fixpoint skip_run (a : atom) (s : string) : string :=
  match s with
  | EmptyString => EmptyString
  | String c s' => if atom_matches a c then skip_run a s' else s
  end.

(** One or more [a], the whole run and nothing given back. *)
Definition match_possessive (a : atom) (k : string -> option string)
  (s : string) : option string :=
  match s with
  | EmptyString => None
  | String c s' => if atom_matches a c then k (skip_run a s') else None
  end.

(** Matching at the start of [s]: what is left of [s] after the match. *)
Fixpoint match_items (items : list item) (s : string) : option string :=
  match items with
  | [] => Some s
  | (a, Once) :: rest =>
      match s with
      | EmptyString => None
      | String c s' => if atom_matches a c then match_items rest s' else None
      end
  | (a, Greedy) :: rest => match_greedy a (match_items rest) s
  | (a, Possessive) :: rest => match_possessive a (match_items rest) s
  end.

(** The scan of [pattern.sub] with an empty replacement: at each position the leftmost match
    is deleted and the scan goes on after it; [skip] counts the matched
    characters still to be dropped.  An empty match deletes nothing. *)
Fixpoint sub_delete (items : list item) (skip : nat) (s : string) : string :=
  match s with
  | EmptyString => EmptyString
  | String c s' =>
      match skip with
      | S n => sub_delete items n s'
      | O =>
          match match_items items s with
          | Some r =>
              match String.length s - String.length r with
              | O => String c (sub_delete items 0 s')
              | S n => sub_delete items n s'
              end
          | None => String c (sub_delete items 0 s')
          end
      end
  end.

(** [re.sub(pattern, empty, s)] where [s] is a string or [None]: the pattern
    is compiled first, then a [None] subject is a [TypeError]. *)
Definition sub (pattern : string) (s : option string) : result string :=
  items <- compile pattern ;;
  match s with
  | Some s => Ok (sub_delete items 0 s)
  | None => Raise TypeError
  end.

End Re.

(** [s.replace(old, empty)]: the occurrences of [old] are deleted from left to
    right, without overlap, in one pass. *)
Fixpoint str_delete (old : string) (skip : nat) (s : string) : string :=
  match s with
  | EmptyString => EmptyString
  | String c s' =>
      match skip with
      | S n => str_delete old n s'
      | O =>
          match PyStr.strip_prefix old s with
          | Some _ =>
              match String.length old with
              | O => String c (str_delete old 0 s')
              | S n => str_delete old n s'
              end
          | None => String c (str_delete old 0 s')
          end
      end
  end.

Definition str_remove (old s : string) : string := str_delete old 0 s.

(** ** Python values and dictionaries *)

Inductive pyval : Type :=
| PNone
| PStr (s : string)
| PTuple (items : list pyval)
| PList (items : list pyval)
| PDict (entries : list (string * pyval)).

(** A [dict] keeps its keys in insertion order. *)
Definition dict : Type := list (string * pyval).

(** [d[k]] *)
Fixpoint dict_get (k : string) (d : dict) : option pyval :=
  match d with
  | [] => None
  | (k', v) :: d' => if String.eqb k k' then Some v else dict_get k d'
  end.

(** [d[k] = v]: the value of an existing key is replaced in place, a new
    key is added at the end. *)
Fixpoint dict_set (k : string) (v : pyval) (d : dict) : dict :=
  match d with
  | [] => [(k, v)]
  | (k', v') :: d' =>
      if String.eqb k k' then (k', v) :: d' else (k', v') :: dict_set k v d'
  end.

Definition keys (d : dict) : list string := map fst d.

(** A string or [None], as [Tag.get] and [get_attribute] return it. *)
Definition of_option (o : option string) : pyval :=
  match o with
  | Some s => PStr s
  | None => PNone
  end.

(** The subject argument of [re.sub] when it is read from a dictionary. *)
Definition as_subject (v : option pyval) : option string :=
  match v with
  | Some (PStr s) => Some s
  | _ => None
  end.

(** ** The BeautifulSoup tree *)

Module Soup.

Inductive node : Type :=
| Text (s : string)
| Tag (name : string) (classes : list string)
      (attrs : list (string * string)) (children : list node).

(** [node.text]: the strings below the node, in document order. *)
Fixpoint text (n : node) : string :=
  match n with
  | Text s => s
  | Tag _ _ _ children =>
      (fix texts (l : list node) : string :=
         match l with
         | [] => EmptyString
         | c :: l' => text c ++ texts l'
         end) children
  end.

(** The nodes below [n], in document order. *)
Fixpoint descendants (n : node) : list node :=
  match n with
  | Text _ => []
  | Tag _ _ _ children =>
      (fix below (l : list node) : list node :=
         match l with
         | [] => []
         | c :: l' => c :: descendants c ++ below l'
         end) children
  end.

(** The test of [find(name, class_=cls)]: the tag name is [name] and, when
    a class is asked for, it is one of the tag's classes. *)
Definition matches (name : string) (cls : option string) (n : node) : bool :=
  match n with
  | Text _ => false
  | Tag nm classes _ _ =>
      String.eqb nm name
      && match cls with
         | Some c => existsb (String.eqb c) classes
         | None => true
         end
  end.

Definition find_all (n : node) (name : string) (cls : option string)
  : list node :=
  List.filter (matches name cls) (descendants n).

(** [find] is the first result of [find_all], or [None]. *)
Definition find (n : node) (name : string) (cls : option string)
  : option node :=
  List.find (matches name cls) (descendants n).

(** [tag.get(attr)] *)
Definition get (n : node) (attr : string) : option string :=
  match n with
  | Text _ => None
  | Tag _ _ attrs _ =>
      option_map snd (List.find (fun kv => String.eqb (fst kv) attr) attrs)
  end.

(** [x.text] where [x] is the result of a [find]: a failure on [None]. *)
Definition text_of (x : option node) : result string :=
  match x with
  | Some n => Ok (text n)
  | None => Raise AttributeError
  end.

End Soup.

Definition class_ (c : string) : option string := Some c.

(** ** The section extractors *)

Definition get_about (about_soup : Soup.node) : pyval :=
  match Soup.find about_soup "p" None with
  | Some about =>
      let about := Soup.text about in
      let about := PyStr.replace_char "010" "." about in
      PStr (extract_text_only (Str about))
  | None => PNone
  end.

(** The body of the loop of [get_experience], for one list item. *)
Definition experience_item (exp : Soup.node) : result dict :=
  let user_experience : dict :=
    [ ("role", PNone); ("company", PNone); ("company_link", PNone);
      ("start_date", PNone); ("end_date", PNone); ("duration", PNone);
      ("location", PNone); ("description", PNone) ] in
  role <- Soup.text_of (Soup.find exp "h3" (class_ "profile-section-card__title")) ;;
  let user_experience :=
    dict_set "role" (PStr (extract_text_only (Str role))) user_experience in
  let job_details :=
    Soup.find exp "a" (class_ "profile-section-card__subtitle-link") in
  let user_experience :=
    match job_details with
    | Some job_details =>
        let user_experience :=
          dict_set "company_link" (of_option (Soup.get job_details "href"))
            user_experience in
        dict_set "company"
          (PStr (extract_text_only (Str (Soup.text job_details))))
          user_experience
    | None => user_experience
    end in
  let date_details := Soup.find exp "span" (class_ "date-range") in
  user_experience <-
    match date_details with
    | Some date_details =>
        let date_details := extract_text_only (Str (Soup.text date_details)) in
        let date_details := PyStr.split "-" date_details in
        d0 <- PyStr.index date_details 0 ;;
        let user_experience := dict_set "start_date" (PStr d0) user_experience in
        d1 <- PyStr.index date_details 1 ;;
        Ok (dict_set "end_date" (PStr d1) user_experience)
    | None => Ok user_experience
    end ;;
  let duration_details :=
    Soup.find exp "span" (class_ "date-range__duration") in
  user_experience <-
    match duration_details with
    | Some duration_details =>
        let duration_details :=
          extract_text_only (Str (Soup.text duration_details)) in
        let user_experience :=
          dict_set "duration" (PStr duration_details) user_experience in
        end_date <-
          Re.sub duration_details
            (as_subject (dict_get "end_date" user_experience)) ;;
        Ok (dict_set "end_date" (PStr end_date) user_experience)
    | None => Ok user_experience
    end ;;
  let user_location :=
    Soup.find exp "p" (class_ "experience-item__location") in
  let user_experience :=
    match user_location with
    | Some user_location =>
        let user_location := extract_text_only (Str (Soup.text user_location)) in
        dict_set "location" (PStr user_location) user_experience
    | None => user_experience
    end in
  let role_description :=
    Soup.find exp "p" (class_ "show-more-less-text__text--less") in
  let user_experience :=
    match role_description with
    | Some role_description =>
        let role_description_more :=
          Soup.find exp "p" (class_ "show-more-less-text__text--more") in
        let role_description :=
          match role_description_more with
          | Some role_description_more => role_description_more
          | None => role_description
          end in
        dict_set "description"
          (PStr (extract_text_only (Str (Soup.text role_description))))
          user_experience
    | None => user_experience
    end in
  Ok user_experience.

(** A [for] loop that appends one dictionary per item; a failure in one
    item ends the loop and the function. *)
Fixpoint for_each (body : Soup.node -> result dict) (items : list Soup.node)
  (total : list pyval) : result (list pyval) :=
  match items with
  | [] => Ok total
  | x :: items' =>
      d <- body x ;;
      for_each body items' (total ++ [PDict d])%list
  end.

Definition get_experience (experience_soup : Soup.node) : result (list pyval) :=
  let total_experiences := [] in
  let experiences :=
    Soup.find_all experience_soup "li" (class_ "experience-item") in
  for_each experience_item experiences total_experiences.

(** The body of the loop of [get_projects], for one list item. *)
Definition project_item (proj : Soup.node) : result dict :=
  let user_project : dict :=
    [ ("project_name", PNone); ("start_date", PNone); ("end_date", PNone);
      ("description", PNone); ("project_link", PNone) ] in
  project_name <-
    Soup.text_of (Soup.find proj "h3" (class_ "profile-section-card__title")) ;;
  let user_project :=
    dict_set "role" (PStr (extract_text_only (Str project_name))) user_project in
  let date_details := Soup.find proj "span" (class_ "date-range") in
  user_project <-
    match date_details with
    | Some date_details =>
        let date_details := extract_text_only (Str (Soup.text date_details)) in
        let date_details := PyStr.split "-" date_details in
        d0 <- PyStr.index date_details 0 ;;
        let user_project := dict_set "start_date" (PStr d0) user_project in
        if Nat.ltb 1 (List.length date_details) then
          d1 <- PyStr.index date_details 1 ;;
          Ok (dict_set "end_date" (PStr d1) user_project)
        else Ok user_project
    | None => Ok user_project
    end ;;
  let project_description :=
    Soup.find proj "p" (class_ "show-more-less-text__text--less") in
  let user_project :=
    match project_description with
    | Some project_description =>
        let project_description_more :=
          Soup.find proj "p" (class_ "show-more-less-text__text--more") in
        let project_description :=
          match project_description_more with
          | Some project_description_more => project_description_more
          | None => project_description
          end in
        dict_set "description"
          (PStr (extract_text_only (Str (Soup.text project_description))))
          user_project
    | None => user_project
    end in
  let project_link := Soup.find proj "a" (class_ "personal-project__button") in
  let user_project :=
    match project_link with
    | Some project_link =>
        dict_set "project_link" (of_option (Soup.get project_link "href"))
          user_project
    | None => user_project
    end in
  Ok user_project.

Definition get_projects (projects_soup : Soup.node) : result (list pyval) :=
  let total_projects := [] in
  let projects := Soup.find_all projects_soup "li" (class_ "personal-project") in
  for_each project_item projects total_projects.

(** The body of the loop of [get_certification], for one list item. *)
Definition certification_item (certify : Soup.node) : result dict :=
  let user_certificate : dict :=
    [ ("certification", PNone); ("certified_by", PNone);
      ("issued_on", PNone); ("certificate_link", PNone) ] in
  let text_field (key : string) (x : option Soup.node) (d : dict) : dict :=
    match x with
    | Some x => dict_set key (PStr (extract_text_only (Str (Soup.text x)))) d
    | None => d
    end in
  let user_certificate :=
    text_field "certification"
      (Soup.find certify "h3" (class_ "profile-section-card__title"))
      user_certificate in
  let user_certificate :=
    text_field "certified_by"
      (Soup.find certify "h4" (class_ "profile-section-card__subtitle"))
      user_certificate in
  let user_certificate :=
    text_field "issued_on"
      (Soup.find certify "div" (class_ "certifications__date-range"))
      user_certificate in
  let user_certificate :=
    match Soup.find certify "a" (class_ "certifications__button") with
    | Some certificate_link =>
        dict_set "certificate_link"
          (of_option (Soup.get certificate_link "href")) user_certificate
    | None => user_certificate
    end in
  Ok user_certificate.

Definition get_certification (certifications_soup : Soup.node)
  : result (list pyval) :=
  let total_certifications := [] in
  let certifications :=
    Soup.find_all certifications_soup "li" (class_ "profile-section-card") in
  for_each certification_item certifications total_certifications.

(** ** Markup used in the examples *)

Module Markup.

Definition el (name cls : string) (txt : string) : Soup.node :=
  Soup.Tag name [cls] [] [Soup.Text txt].

Definition title (txt : string) : Soup.node :=
  el "h3" "profile-section-card__title" txt.

(** The date range as the profile pages carry it: the duration span lies
    inside the date-range span. *)
Definition date_range (dates duration : string) : Soup.node :=
  Soup.Tag "span" ["date-range"] []
    [Soup.Text dates; el "span" "date-range__duration" duration].

Definition experience (children : list Soup.node) : Soup.node :=
  Soup.Tag "li" ["profile-section-card"; "experience-item"] [] children.

Definition project (children : list Soup.node) : Soup.node :=
  Soup.Tag "li" ["profile-section-card"; "personal-project"] [] children.

Definition section (cls : string) (items : list Soup.node) : Soup.node :=
  Soup.Tag "section" [cls] [] [Soup.Tag "ul" [] [] items].

End Markup.

(** ** The browser driver

    What the driver answers is data: a [page] lists the elements a lookup
    can find, under the locator that finds them, in document order; a
    result link tells which profile page a click on it opens, if any; the
    search is the list of its result pages, each reached from the one
    before by the next-page control.  The calls that act on the browser are
    recorded, in order, in a trace. *)

Module Driver.

Record element : Type := {
  text : string;                  (* [.text] *)
  is_displayed : bool;            (* [.is_displayed()] *)
  class_attribute : option string;(* [.get_attribute("class")] *)
  outerHTML : Soup.node           (* [.get_attribute("outerHTML")], parsed *)
}.

Definition page : Type := list (string * element).

Definition find_elements (p : page) (locator : string) : list element :=
  map snd (List.filter (fun e => String.eqb (fst e) locator) p).

Definition find_element (p : page) (locator : string) : result element :=
  match find_elements p locator with
  | e :: _ => Ok e
  | [] => Raise NoSuchElementException
  end.

Record link : Type := {
  href : option string;           (* [.get_attribute("href")] *)
  visible : bool;
  target : option page            (* the page [.click()] opens; [None]: the
                                     click fails *)
}.

Record results_page : Type := {
  links : list link;              (* the elements under the result locator *)
  pnnext : option element         (* the element with id [pnnext] *)
}.

Inductive event : Type :=
| Chrome
| Get (url : string)
| Click (href : option string)
| ClickNext
| Back
| Quit
| ToExcel (file : string) (rows : list pyval).

(** A computation that acts on the browser: it extends the trace and
    returns or raises. *)
Definition M (A : Type) : Type := list event -> result A * list event.

Definition ret {A : Type} (a : A) : M A := fun t => (Ok a, t).

Definition lift {A : Type} (r : result A) : M A := fun t => (r, t).

Definition emit (e : event) : M unit := fun t => (Ok tt, (t ++ [e])%list).

Definition mbind {A B : Type} (m : M A) (k : A -> M B) : M B :=
  fun t =>
    match m t with
    | (Ok a, t') => k a t'
    | (Raise e, t') => (Raise e, t')
    end.

(** [try: m; except Exception: handler] followed by [k]. *)
Definition try_except {A B : Type} (m : M A) (handler : M B) (k : A -> M B)
  : M B :=
  fun t =>
    match m t with
    | (Ok a, t') => k a t'
    | (Raise _, t') => handler t'
    end.

End Driver.

Notation "x <~ m ;; k" := (Driver.mbind m (fun x => k))
  (at level 61, m at next level, right associativity).

Import Driver.

(** ** Locators *)

Definition dq : string := String "034" EmptyString.

Definition main_content : string :=
  "//*[@id=" ++ dq ++ "main-content" ++ dq ++ "]".

Definition card : string :=
  main_content ++ "/section[1]/div/section/section[1]/div".

Definition xpath_name : string := card ++ "/div[2]/div[1]/h1".
Definition xpath_description : string := card ++ "/div[2]/div[1]/h2".
Definition xpath_location : string := card ++ "/div[2]/div[1]/h3".
Definition xpath_company : string := card ++ "/div[2]/div[2]/div/div[1]".
Definition xpath_image : string := card ++ "/div[1]/img".
Definition xpath_details : string := card ++ "/div[2]/div[1]".
Definition xpath_sections : string :=
  main_content ++ "/section/div/section/section".

(** ** The basic identity extractor *)

(** [try: v = find_element(...).text ...; except Exception: v = default] *)
Definition text_or {A : Type} (r : result A) (f : A -> string) : string :=
  match r with
  | Ok a => f a
  | Raise _ => EmptyString
  end.

(** The lookups of [get_basic_details] use absolute paths, so they search
    the whole page [user_details] belongs to. *)
Definition get_basic_details (user_details : page) : dict :=
  let basic_data : dict :=
    [ ("user_name", PNone); ("user_description", PNone);
      ("user_location", PNone); ("current_company", PNone) ] in
  let user_name :=
    text_or (find_element user_details xpath_name)
      (fun e => extract_text_only (Str (text e))) in
  let user_description :=
    text_or (find_element user_details xpath_description) text in
  let user_location :=
    text_or (find_element user_details xpath_location)
      (fun e =>
         let user_location := text e in
         if PyStr.contains (String "010" EmptyString) user_location
         then hd EmptyString (PyStr.split "010" user_location)
         else user_location) in
  let current_company :=
    text_or (find_element user_details xpath_company) text in
  let basic_data := dict_set "user_name" (PTuple [PStr user_name]) basic_data in
  let basic_data := dict_set "user_location" (PStr user_location) basic_data in
  let basic_data :=
    dict_set "user_description" (PStr user_description) basic_data in
  let basic_data := dict_set "current_company" (PStr current_company) basic_data in
  basic_data.

(** ** The crawl *)

(** [BeautifulSoup(section_html, "html.parser")]: the document, whose only
    child is the section. *)
Definition BeautifulSoup (section_html : Soup.node) : Soup.node :=
  Soup.Tag "[document]" [] [] [section_html].

(** The body of [for section in sections]. *)
Definition route_section (section : element) (user_data : dict) : result dict :=
  let section_soup := BeautifulSoup (outerHTML section) in
  match class_attribute section with
  | None => Raise TypeError
  | Some section_name =>
      let user_data :=
        if PyStr.contains "summary" section_name
        then dict_set "about" (get_about section_soup) user_data
        else user_data in
      user_data <-
        (if PyStr.contains "experience" section_name
         then experiences <- get_experience section_soup ;;
              Ok (dict_set "experience" (PList experiences) user_data)
         else Ok user_data) ;;
      user_data <-
        (if PyStr.contains "projects" section_name
         then projects <- get_projects section_soup ;;
              Ok (dict_set "projects" (PList projects) user_data)
         else Ok user_data) ;;
      (if PyStr.contains "certifications" section_name
       then certifications <- get_certification section_soup ;;
            Ok (dict_set "certifications" (PList certifications) user_data)
       else Ok user_data)
  end.

Fixpoint for_sections (sections : list element) (user_data : dict)
  : result dict :=
  match sections with
  | [] => Ok user_data
  | section :: sections' =>
      user_data <- route_section section user_data ;;
      for_sections sections' user_data
  end.

(** [t[0]] for the value stored under a key. *)
Definition first_of (v : option pyval) : result pyval :=
  match v with
  | Some (PTuple (x :: _)) => Ok x
  | Some (PList (x :: _)) => Ok x
  | Some (PTuple []) => Raise IndexError
  | Some (PList []) => Raise IndexError
  | _ => Raise TypeError
  end.

Definition value_of (v : option pyval) : pyval :=
  match v with
  | Some x => x
  | None => PNone
  end.

(** The first [try] block of the link loop: the address is recorded, the
    link is followed, the profile picture is waited for and the details
    block is located. *)
Definition open_profile (l : link) (user_data : dict) : M (dict * page) :=
  let user_data := dict_set "linkedin_profile" (of_option (href l)) user_data in
  match target l with
  | None => lift (Raise WebDriverException)
  | Some profile =>
      _ <~ emit (Click (href l)) ;;
      _ <~ lift (match find_elements profile xpath_image with
                 | _ :: _ => Ok tt
                 | [] => Raise TimeoutException
                 end) ;;
      _ <~ lift (find_element profile xpath_details) ;;
      ret (user_data, profile)
  end.

(** The body of [for link in linkedin_links]; [continue] leaves the list
    of profiles as it is. *)
Definition visit (role : string) (l : link) (total_data : list pyval)
  : M (list pyval) :=
  let user_data : dict :=
    [ ("name", PNone); ("role", PNone); ("currently_doing", PNone);
      ("current_company", PNone); ("about", PNone);
      ("linkedin_profile", PNone); ("location", PNone);
      ("experience", PNone); ("certifications", PNone);
      ("projects", PNone) ] in
  try_except (open_profile l user_data) (ret total_data)
    (fun opened =>
       let '(user_data, user_details) := opened in
       let basic_data := get_basic_details user_details in
       try_except
         (lift (e <- find_element user_details xpath_sections ;;
                Ok (is_displayed e)))
         (ret total_data)
         (fun user_has_sections =>
            user_data <~
              lift (if user_has_sections : bool
                    then for_sections
                           (find_elements user_details xpath_sections)
                           user_data
                    else Ok user_data) ;;
            name <~ lift (first_of (dict_get "user_name" basic_data)) ;;
            let user_data := dict_set "name" name user_data in
            let user_data :=
              dict_set "currently_doing"
                (value_of (dict_get "user_description" basic_data)) user_data in
            let user_data :=
              dict_set "location"
                (value_of (dict_get "user_location" basic_data)) user_data in
            let user_data :=
              dict_set "current_company"
                (value_of (dict_get "current_company" basic_data)) user_data in
            let user_data := dict_set "role" (PStr role) user_data in
            let total_data := (total_data ++ [PDict user_data])%list in
            _ <~ emit Back ;;
            ret total_data)).

Fixpoint for_links (role : string) (linkedin_links : list link)
  (total_data : list pyval) : M (list pyval) :=
  match linkedin_links with
  | [] => ret total_data
  | l :: rest =>
      total_data <~ visit role l total_data ;;
      for_links role rest total_data
  end.

(** [wait.until(EC.visibility_of_all_elements_located(...))]: the elements
    when there is at least one and all are visible; otherwise the wait
    runs out. *)
Definition wait_links (p : results_page) : result (list link) :=
  match links p with
  | [] => Raise TimeoutException
  | ls => if List.forallb visible ls then Ok ls else Raise TimeoutException
  end.

(** The lines after the link loop: the next-page control is looked up and,
    when displayed, followed. *)
Definition check_next (p : results_page) : M bool :=
  next_exists <~
    lift (e <- match pnnext p with
               | Some e => Ok e
               | None => Raise NoSuchElementException
               end ;;
          Ok (is_displayed e)) ;;
  if next_exists : bool then
    _ <~ emit ClickNext ;;
    ret true
  else ret false.

(** One turn of [while next_exists], on the result page the browser
    shows; it returns the new value of [next_exists]. *)
Definition turn (role : string) (p : results_page) (total_data : list pyval)
  : M (bool * list pyval) :=
  try_except (lift (wait_links p)) (ret (false, total_data))
    (fun linkedin_links =>
       total_data <~ for_links role linkedin_links total_data ;;
       next_exists <~ check_next p ;;
       ret (next_exists, total_data)).

(** [while next_exists: ...], with [next_exists] true on entry.  The
    browser shows the first of [pages]; following the next-page control
    shows the one after.  When no page is left the wait for links runs
    out, which ends the loop. *)
Fixpoint while_next_exists (role : string) (pages : list results_page)
  (total_data : list pyval) : M (list pyval) :=
  match pages with
  | [] => ret total_data
  | p :: later =>
      r <~ turn role p total_data ;;
      let '(next_exists, total_data) := r in
      if next_exists : bool
      then while_next_exists role later total_data
      else ret total_data
  end.

Definition get_data_from_google (role : string) (pages : list results_page)
  : M unit :=
  let total_data := [] in
  let url := role ++ " site:linkedin.com/in -jobs" in
  let only_english := "language:en" in
  let only_indians := "location:In" in
  let search_url :=
    "https://www.google.com/search?q=" ++ url ++ only_english ++ only_indians in
  _ <~ emit Chrome ;;
  _ <~ emit (Get search_url) ;;
  total_data <~ while_next_exists role pages total_data ;;
  _ <~ emit Quit ;;
  _ <~ emit (ToExcel (role ++ "linkedProfiles.xlsx") total_data) ;;
  ret tt.

(** The run of [get_data_from_google(role)] from a fresh trace. *)
Definition run (role : string) (pages : list results_page)
  : result unit * list event :=
  get_data_from_google role pages [].

(** How often [driver.quit()] was called. *)
Definition quits (t : list event) : nat :=
  List.length (List.filter (fun e => match e with Quit => true | _ => false end) t).

(** ** The normaliser as the specification words it *)

(** The allowed set of the specification: alphanumerics, whitespace, the
    period, the hyphen and the plus sign. *)
Definition allowed_spec (c : ascii) : bool :=
  PyStr.is_alnum c || PyStr.is_space c
  || Ascii.eqb c "." || Ascii.eqb c "-" || Ascii.eqb c "+".

Definition joined (w : word_arg) : string :=
  match w with
  | Seq l => PyStr.join " " l
  | Str s => s
  end.

Definition normalize_spec (w : word_arg) : string :=
  PyStr.strip (PyStr.filter allowed_spec (joined w)).

Definition is_blank (c : ascii) : bool := Ascii.eqb c " ".

(** ** Notions used in the statements *)

(** A string that does not start with whitespace. *)
Definition starts_clean (s : string) : Prop :=
  match s with
  | EmptyString => True
  | String c _ => PyStr.is_space c = false
  end.

(** A character that stands for itself in a pattern. *)
Definition plain (c : ascii) : bool :=
  negb (Ascii.eqb c ".") && negb (Ascii.eqb c "+").

Fixpoint literal_items (s : string) : list Re.item :=
  match s with
  | EmptyString => []
  | String c s' => (Re.Lit c, Re.Once) :: literal_items s'
  end.

(** The normalised text of a node. *)
Definition norm (n : Soup.node) : string :=
  extract_text_only (Str (Soup.text n)).

Definition no_hyphen (s : string) : bool :=
  negb (PyStr.contains "-" s).

(** A computation that leaves the number of [driver.quit()] calls as it
    was. *)
Definition quiet {A : Type} (m : M A) : Prop :=
  forall t, quits (snd (m t)) = quits t.

(** The keys of the records the extractors build, in the order of the
    source. *)
Definition experience_keys : list string :=
  [ "role"; "company"; "company_link"; "start_date"; "end_date"; "duration";
    "location"; "description" ].

Definition certificate_keys : list string :=
  [ "certification"; "certified_by"; "issued_on"; "certificate_link" ].

Definition basic_keys : list string :=
  [ "user_name"; "user_description"; "user_location"; "current_company" ].

Definition profile_keys : list string :=
  [ "name"; "role"; "currently_doing"; "current_company"; "about";
    "linkedin_profile"; "location"; "experience"; "certifications";
    "projects" ].

(** A value that is a dictionary with the keys [ks], in that order. *)
Definition has_keys (ks : list string) (row : pyval) : Prop :=
  match row with
  | PDict d => keys d = ks
  | _ => False
  end.

Definition newline : string := String "010" EmptyString.

Definition not_hyphen (c : ascii) : bool := negb (Ascii.eqb c "-").

(** The events of the link loop and of the page loop. *)
Definition loop_event (e : event) : bool :=
  match e with
  | Click _ | ClickNext | Back => true
  | _ => false
  end.

(** How often [driver.back()] was called. *)
Definition backs (t : list event) : nat :=
  List.length
    (List.filter (fun e => match e with Back => true | _ => false end) t).

(** The keys that the sections of a profile are stored under. *)
Definition section_key (k : string) : bool :=
  String.eqb k "about" || String.eqb k "experience"
  || String.eqb k "projects" || String.eqb k "certifications".

(** A row of the result: a dictionary with the ten keys of a profile
    that carries the searched role. *)
Definition profile_row (role : string) (row : pyval) : Prop :=
  match row with
  | PDict d => keys d = profile_keys /\ dict_get "role" d = Some (PStr role)
  | _ => False
  end.

(** What a part of the crawl does, started with the profiles [total] and
    the trace [t]: it adds events of the loops to the trace and, when it
    returns, profiles to the list, one for each call of [driver.back()]. *)
Definition gathers (role : string) (total : list pyval) (t : list event)
  (out : result (list pyval) * list event) : Prop :=
  exists mid,
    snd out = (t ++ mid)%list
    /\ List.forallb loop_event mid = true
    /\ match fst out with
       | Ok total' =>
           exists more,
             total' = (total ++ more)%list
             /\ backs mid = List.length more
             /\ Forall (profile_row role) more
       | Raise _ => True
       end.

(** A section whose class attribute names none of the four kinds. *)
Definition unrecognised (section : element) : bool :=
  match class_attribute section with
  | Some name =>
      negb (PyStr.contains "summary" name || PyStr.contains "experience" name
            || PyStr.contains "projects" name
            || PyStr.contains "certifications" name)
  | None => false
  end.

(** The address [driver.get] is called with. *)
Definition search_url_of (role : string) : string :=
  "https://www.google.com/search?q=" ++ role
  ++ " site:linkedin.com/in -jobslanguage:enlocation:In".

(** The date range and the duration of an experience item can be read:
    there is no duration without a date range, a date range has a hyphen,
    and a duration next to it compiles as a pattern. *)
Definition dates_readable (exp : Soup.node) : bool :=
  match Soup.find exp "span" (class_ "date-range"),
        Soup.find exp "span" (class_ "date-range__duration") with
  | None, None => true
  | None, Some _ => false
  | Some dates, None => negb (no_hyphen (norm dates))
  | Some dates, Some duration =>
      negb (no_hyphen (norm dates)) && is_ok (Re.compile (norm duration))
  end.

(** ** Pages used in the examples *)

Module Example.

Definition shown (t : string) : element :=
  {| text := t; is_displayed := true; class_attribute := None;
     outerHTML := Soup.Text t |}.

Definition section (cls : string) (items : list Soup.node) : element :=
  {| text := EmptyString; is_displayed := true; class_attribute := Some cls;
     outerHTML := Markup.section cls items |}.

Definition follow (address : string) (p : page) : link :=
  {| href := Some address; visible := true; target := Some p |}.

(** A profile with one experience entry. *)
Definition analyst : page :=
  [ (xpath_image, shown EmptyString);
    (xpath_details, shown "Ann Lee");
    (xpath_name, shown "Ann Lee");
    (xpath_sections,
      section "core-section-container experience"
        [Markup.experience
           [Markup.title "Analyst"; Markup.el "span" "date-range" "2019-2021"]]) ].

(** A profile whose picture never appears. *)
Definition no_picture : page := [ (xpath_details, shown "Bob") ].

(** A profile that opens and has no content section. *)
Definition no_sections : page :=
  [ (xpath_image, shown EmptyString); (xpath_details, shown "Cy");
    (xpath_name, shown "Cy") ].

(** A profile whose experience entry has a date range without hyphen. *)
Definition since_2019 : page :=
  [ (xpath_image, shown EmptyString);
    (xpath_details, shown "Dee");
    (xpath_sections,
      section "core-section-container experience"
        [Markup.experience
           [Markup.title "Analyst";
            Markup.el "span" "date-range" "since 2019"]]) ].



(** The record of a profile before anything is read. *)
Definition blank : dict :=
  [ ("name", PNone); ("role", PNone); ("currently_doing", PNone);
    ("current_company", PNone); ("about", PNone);
    ("linkedin_profile", PNone); ("location", PNone);
    ("experience", PNone); ("certifications", PNone);
    ("projects", PNone) ].

(** A results page whose only link is not visible. *)
Definition unseen : results_page :=
  {| links := [ {| href := Some "u5"; visible := false;
                   target := Some no_picture |} ];
     pnnext := None |}.

Definition analyst_row : pyval :=
  PDict
    [ ("name", PStr "Ann Lee"); ("role", PStr "data analyst");
      ("currently_doing", PStr EmptyString);
      ("current_company", PStr EmptyString); ("about", PNone);
      ("linkedin_profile", PStr "u1"); ("location", PStr EmptyString);
      ("experience",
        PList
          [PDict
             [ ("role", PStr "Analyst"); ("company", PNone);
               ("company_link", PNone); ("start_date", PStr "2019");
               ("end_date", PStr "2021"); ("duration", PNone);
               ("location", PNone); ("description", PNone) ]]);
      ("certifications", PNone); ("projects", PNone) ].

Definition search_url : string :=
  "https://www.google.com/search?q=data analyst site:linkedin.com/in -jobslanguage:enlocation:In".

End Example.

(** * Properties of the text normaliser *)

Section Normaliser.

Import PyStr.

Lemma forallb_filter (p : ascii -> bool) (s : string) :
  forallb p (filter p s) = true.
Proof.
  induction s as [|c s IH]; simpl; [reflexivity|].
  destruct (p c) eqn:E; simpl; [rewrite E|]; exact IH.
Qed.

Lemma filter_all (p : ascii -> bool) (s : string) :
  forallb p s = true -> filter p s = s.
Proof.
  induction s as [|c s IH]; simpl; [reflexivity|].
  intros H. apply andb_true_iff in H. destruct H as [Hc Hs].
  rewrite Hc, (IH Hs). reflexivity.
Qed.

Lemma forallb_app (p : ascii -> bool) (a b : string) :
  forallb p (a ++ b) = forallb p a && forallb p b.
Proof.
  induction a as [|c a IH]; simpl; [reflexivity|].
  rewrite IH. apply andb_assoc.
Qed.

(** [lstrip] takes a run of whitespace off the front. *)
Lemma lstrip_split (s : string) :
  exists pre, s = pre ++ lstrip s /\ forallb is_space pre = true.
Proof.
  induction s as [|c s [pre [E H]]]; simpl.
  - exists EmptyString. split; reflexivity.
  - destruct (is_space c) eqn:Ec.
    + exists (String c pre). simpl. rewrite Ec, H, <- E. split; reflexivity.
    + exists EmptyString. split; reflexivity.
Qed.

(** [rstrip] takes a run of whitespace off the back. *)
Lemma rstrip_split (s : string) :
  exists post, s = rstrip s ++ post /\ forallb is_space post = true.
Proof.
  induction s as [|c s [post [E H]]]; simpl.
  - exists EmptyString. split; reflexivity.
  - destruct (is_space c && is_empty (rstrip s)) eqn:Ec.
    + apply andb_true_iff in Ec. destruct Ec as [Ec Er].
      destruct (rstrip s); [|discriminate]. simpl in E.
      exists (String c post). simpl. rewrite Ec, H, <- E. split; reflexivity.
    + exists post. simpl. rewrite <- E. split; [reflexivity | exact H].
Qed.

Lemma lstrip_clean (s : string) : starts_clean (lstrip s).
Proof.
  induction s as [|c s IH]; simpl; [exact I|].
  destruct (is_space c) eqn:E; [exact IH | exact E].
Qed.

Lemma lstrip_of_clean (s : string) : starts_clean s -> lstrip s = s.
Proof.
  destruct s as [|c s]; simpl; [reflexivity|].
  intros ->. reflexivity.
Qed.

Lemma rstrip_clean (s : string) : starts_clean s -> starts_clean (rstrip s).
Proof.
  destruct s as [|c s]; simpl; [trivial|].
  intros E. rewrite E. simpl. exact E.
Qed.

Lemma rstrip_idempotent (s : string) : rstrip (rstrip s) = rstrip s.
Proof.
  induction s as [|c s IH]; simpl; [reflexivity|].
  destruct (is_space c && is_empty (rstrip s)) eqn:E; simpl; [reflexivity|].
  rewrite IH, E. reflexivity.
Qed.

Lemma strip_idempotent (s : string) : strip (strip s) = strip s.
Proof.
  unfold strip.
  rewrite (lstrip_of_clean (rstrip (lstrip s))).
  - apply rstrip_idempotent.
  - apply rstrip_clean, lstrip_clean.
Qed.

Lemma strip_split (s : string) :
  exists pre post,
    s = pre ++ strip s ++ post
    /\ forallb is_space pre = true /\ forallb is_space post = true.
Proof.
  destruct (lstrip_split s) as [pre [E1 H1]].
  destruct (rstrip_split (lstrip s)) as [post [E2 H2]].
  exists pre, post. unfold strip. rewrite <- E2, <- E1. auto.
Qed.

Lemma forallb_strip (p : ascii -> bool) (s : string) :
  forallb p s = true -> forallb p (strip s) = true.
Proof.
  destruct (strip_split s) as [pre [post [E _]]].
  intros H. rewrite E in H. rewrite !forallb_app in H.
  apply andb_true_iff in H. destruct H as [_ H].
  apply andb_true_iff in H. exact (proj1 H).
Qed.

(** The only whitespace the pattern keeps is the space. *)
Lemma kept_space (c : ascii) :
  kept c = true -> is_space c = true -> is_blank c = true.
Proof.
  destruct c as [[] [] [] [] [] [] [] []]; vm_compute; congruence.
Qed.

Lemma forallb_kept_space (s : string) :
  forallb kept s = true -> forallb is_space s = true ->
  forallb is_blank s = true.
Proof.
  induction s as [|c s IH]; simpl; [reflexivity|].
  intros H1 H2.
  apply andb_true_iff in H1. apply andb_true_iff in H2.
  destruct H1 as [K1 K2], H2 as [S1 S2].
  rewrite (kept_space c K1 S1), (IH K2 S2). reflexivity.
Qed.

Lemma extract_text_only_kept (w : word_arg) :
  forallb kept (extract_text_only w) = true.
Proof.
  unfold extract_text_only, sub_regex.
  apply forallb_strip, forallb_filter.
Qed.

End Normaliser.

(** C3, as the code has it.  [extract_text_only] joins a sequence with one
    space and keeps, in order, exactly the characters that are word
    characters (alphanumerics and the underscore), spaces, periods,
    hyphens or plus signs, less a run of spaces at the front and one at
    the back: every character of the output is in that kept set, the
    output neither starts nor ends with whitespace, and what was dropped
    from the kept characters of the input is only leading and trailing
    spaces. *)
Theorem extract_text_only_keeps (w : word_arg) :
  PyStr.forallb kept (extract_text_only w) = true
  /\ PyStr.strip (extract_text_only w) = extract_text_only w
  /\ exists pre post,
       PyStr.filter kept (joined w) = pre ++ extract_text_only w ++ post
       /\ PyStr.forallb is_blank pre = true
       /\ PyStr.forallb is_blank post = true.
Proof.
  split; [apply extract_text_only_kept|].
  split; [apply strip_idempotent|].
  destruct (strip_split (PyStr.filter kept (joined w))) as [pre [post [E [H1 H2]]]].
  exists pre, post.
  assert (K : PyStr.forallb kept (pre ++ extract_text_only w ++ post) = true).
  { change (extract_text_only w) with (PyStr.strip (PyStr.filter kept (joined w))).
    rewrite <- E. apply forallb_filter. }
  rewrite !forallb_app in K.
  apply andb_true_iff in K. destruct K as [Kpre K].
  apply andb_true_iff in K. destruct K as [_ Kpost].
  split; [exact E|].
  split; apply forallb_kept_space; assumption.
Qed.

(** C3, as the specification words it, fails on the text [a_b<TAB>c]: the
    output [a_bc] holds an underscore, which is outside the allowed set of
    the specification, and has lost the tab, a whitespace character inside
    it that was neither leading nor trailing. *)
Lemma extract_text_only_not_spec :
  let input := Str ("a_b" ++ String "009" "c") in
  extract_text_only input = "a_bc"
  /\ PyStr.forallb allowed_spec (extract_text_only input) = false
  /\ normalize_spec input = "ab" ++ String "009" "c"
  /\ extract_text_only input <> normalize_spec input.
Proof.
  vm_compute. repeat split; discriminate.
Qed.

(** C4.  Normalising a normalised text returns it unchanged, whatever the
    first input was: a string (the empty one and those made of whitespace
    included) or a sequence of strings. *)
Theorem extract_text_only_idempotent (w : word_arg) :
  extract_text_only (Str (extract_text_only w)) = extract_text_only w.
Proof.
  unfold extract_text_only at 1. unfold sub_regex.
  rewrite (filter_all kept (extract_text_only w) (extract_text_only_kept w)).
  unfold extract_text_only, sub_regex. apply strip_idempotent.
Qed.

Example extract_text_only_empty :
  extract_text_only (Str EmptyString) = EmptyString
  /\ extract_text_only (Str "   ") = EmptyString.
Proof. split; reflexivity. Qed.
(** * Properties of [re.sub] on literal patterns *)

Section Literal.

Lemma parse_from_plain (s : string) (prev : Re.item) :
  PyStr.forallb plain s = true ->
  Re.parse_from prev s = Ok (prev :: literal_items s).
Proof.
  revert prev. induction s as [|c s IH]; intros prev H; simpl in *.
  - reflexivity.
  - apply andb_true_iff in H. destruct H as [Hc Hs].
    unfold plain in Hc. apply andb_true_iff in Hc. destruct Hc as [Hdot Hplus].
    apply negb_true_iff in Hdot, Hplus.
    rewrite Hplus. unfold Re.atom_of. rewrite Hdot.
    rewrite (IH _ Hs). reflexivity.
Qed.

Lemma compile_plain (s : string) :
  PyStr.forallb plain s = true -> Re.compile s = Ok (literal_items s).
Proof.
  destruct s as [|c s]; simpl; [reflexivity|].
  intros H. apply andb_true_iff in H. destruct H as [Hc Hs].
  unfold plain in Hc. apply andb_true_iff in Hc. destruct Hc as [Hdot Hplus].
  apply negb_true_iff in Hdot, Hplus.
  rewrite Hplus. unfold Re.atom_of. rewrite Hdot.
  apply parse_from_plain, Hs.
Qed.

Lemma match_literal (p s : string) :
  Re.match_items (literal_items p) s = PyStr.strip_prefix p s.
Proof.
  revert s. induction p as [|a p IH]; intros s; simpl.
  - destruct s; reflexivity.
  - destruct s as [|b s]; [reflexivity|].
    destruct (Ascii.eqb a b); [apply IH | reflexivity].
Qed.

Lemma strip_prefix_length (p s r : string) :
  PyStr.strip_prefix p s = Some r ->
  String.length s = String.length p + String.length r.
Proof.
  revert s. induction p as [|a p IH]; intros s H; simpl in *.
  - destruct s; inversion H; reflexivity.
  - destruct s as [|b s]; [discriminate|].
    destruct (Ascii.eqb a b); [|discriminate].
    simpl. rewrite (IH _ H). reflexivity.
Qed.

Lemma sub_delete_literal (p s : string) (skip : nat) :
  Re.sub_delete (literal_items p) skip s = str_delete p skip s.
Proof.
  revert skip. induction s as [|c s IH]; intros skip; [reflexivity|].
  cbn [Re.sub_delete str_delete].
  destruct skip as [|n]; [|apply IH].
  rewrite match_literal.
  destruct (PyStr.strip_prefix p (String c s)) as [r|] eqn:E.
  - apply strip_prefix_length in E. rewrite E.
    replace (String.length p + String.length r - String.length r)
      with (String.length p) by lia.
    destruct (String.length p); [rewrite IH; reflexivity | apply IH].
  - rewrite IH. reflexivity.
Qed.

(** On a pattern without period and plus sign, [re.sub] with an empty
    replacement is [str.replace] with an empty replacement. *)
Lemma sub_plain (p s : string) :
  PyStr.forallb plain p = true ->
  Re.sub p (Some s) = Ok (str_remove p s).
Proof.
  intros H. unfold Re.sub. rewrite (compile_plain p H). simpl.
  rewrite sub_delete_literal. reflexivity.
Qed.

End Literal.

(** * Properties of the section extractors *)

Section Extractors.

Lemma contains_char (a c : ascii) (s : string) :
  PyStr.contains (String a EmptyString) (String c s)
  = Ascii.eqb a c || PyStr.contains (String a EmptyString) s.
Proof.
  cbn [PyStr.contains PyStr.strip_prefix].
  destruct (Ascii.eqb a c); [reflexivity|].
  destruct s; reflexivity.
Qed.

Lemma split_no_hyphen (s : string) :
  no_hyphen s = true -> PyStr.split "-" s = [s].
Proof.
  unfold no_hyphen. intros H. apply negb_true_iff in H.
  induction s as [|c s IH]; [reflexivity|].
  rewrite contains_char in H. apply orb_false_iff in H. destruct H as [Hc Hs].
  rewrite Ascii.eqb_sym in Hc.
  cbn [PyStr.split]. rewrite Hc, (IH Hs). reflexivity.
Qed.

Lemma for_each_fails (body : Soup.node -> result dict) (items : list Soup.node)
  (total : list pyval) (x : Soup.node) :
  In x items -> is_ok (body x) = false ->
  is_ok (for_each body items total) = false.
Proof.
  revert total. induction items as [|y items IH]; intros total Hin Hx.
  - destruct Hin.
  - simpl. destruct (body y) as [d|e] eqn:E; simpl; [|reflexivity].
    destruct Hin as [->|Hin].
    + rewrite E in Hx. discriminate.
    + apply IH; assumption.
Qed.

(** X6.  An experience item with a title, a date range of at least two
    segments and a duration whose text holds no period and no plus sign:
    the start date is the first segment, the duration is stored as it
    is, and the end date is the second segment of the date range with the
    occurrences of the duration text deleted. *)
Lemma experience_item_end_date (exp title dates duration : Soup.node)
  (d0 d1 : string) (ds : list string) :
  Soup.find exp "h3" (class_ "profile-section-card__title") = Some title ->
  Soup.find exp "span" (class_ "date-range") = Some dates ->
  PyStr.split "-" (norm dates) = d0 :: d1 :: ds ->
  Soup.find exp "span" (class_ "date-range__duration") = Some duration ->
  PyStr.forallb plain (norm duration) = true ->
  exists r,
    experience_item exp = Ok r
    /\ dict_get "start_date" r = Some (PStr d0)
    /\ dict_get "duration" r = Some (PStr (norm duration))
    /\ dict_get "end_date" r = Some (PStr (str_remove (norm duration) d1)).
Proof.
  intros Ht Hd Hs Hu Hp. unfold experience_item.
  rewrite Ht, Hd, Hu. fold (norm dates) (norm duration). rewrite Hs.
  cbn [Soup.text_of bind PyStr.index nth_error].
  destruct (Soup.find exp "a" _); destruct (Soup.find exp "p" (class_ "experience-item__location"));
    destruct (Soup.find exp "p" (class_ "show-more-less-text__text--less"));
    cbn -[extract_text_only Re.sub str_remove]; rewrite (sub_plain _ _ Hp);
    cbn -[extract_text_only Re.sub str_remove]; eexists; repeat split.
Qed.

Lemma sub_none (p s : string) : Re.sub p None <> Ok s.
Proof. unfold Re.sub. destruct (Re.compile p); discriminate. Qed.

Ltac find_cases :=
  repeat match goal with
    | H : context [match Soup.find ?a ?b ?c with _ => _ end] |- _ =>
        destruct (Soup.find a b c) eqn:?
    | |- context [match Soup.find ?a ?b ?c with _ => _ end] =>
        destruct (Soup.find a b c) eqn:?
    end.

Ltac compute_dict :=
  cbn -[extract_text_only Re.sub str_remove PyStr.split Soup.text] in *.

(** An experience item without duration span: the dates are the first two
    segments of the date range. *)
Lemma experience_item_dates (exp title dates : Soup.node)
  (d0 d1 : string) (ds : list string) :
  Soup.find exp "h3" (class_ "profile-section-card__title") = Some title ->
  Soup.find exp "span" (class_ "date-range") = Some dates ->
  PyStr.split "-" (norm dates) = d0 :: d1 :: ds ->
  Soup.find exp "span" (class_ "date-range__duration") = None ->
  exists r,
    experience_item exp = Ok r
    /\ dict_get "start_date" r = Some (PStr d0)
    /\ dict_get "end_date" r = Some (PStr d1).
Proof.
  intros Ht Hd Hs Hu. unfold experience_item.
  rewrite Ht, Hd, Hu. fold (norm dates). rewrite Hs.
  find_cases; compute_dict; eexists; repeat split.
Qed.

(** An experience item whose date range has no hyphen is not extracted. *)
Lemma experience_item_no_hyphen (exp dates : Soup.node) :
  Soup.find exp "span" (class_ "date-range") = Some dates ->
  no_hyphen (norm dates) = true ->
  is_ok (experience_item exp) = false.
Proof.
  intros Hd Hn. unfold experience_item.
  rewrite Hd. fold (norm dates). rewrite (split_no_hyphen _ Hn).
  destruct (Soup.find exp "h3" _); reflexivity.
Qed.

(** A project item whose date range has no hyphen has a start date only. *)
Lemma project_item_no_hyphen (proj title dates : Soup.node) :
  Soup.find proj "h3" (class_ "profile-section-card__title") = Some title ->
  Soup.find proj "span" (class_ "date-range") = Some dates ->
  no_hyphen (norm dates) = true ->
  exists r,
    project_item proj = Ok r
    /\ dict_get "start_date" r = Some (PStr (norm dates))
    /\ dict_get "end_date" r = Some PNone.
Proof.
  intros Ht Hd Hn. unfold project_item.
  rewrite Ht, Hd. fold (norm dates). rewrite (split_no_hyphen _ Hn).
  find_cases; compute_dict; eexists; repeat split.
Qed.

(** Where a project item is extracted, its title is stored under the key
    [role], which the record did not have, and [project_name] stays
    [None]. *)
Lemma project_item_title (proj : Soup.node) (r : dict) :
  project_item proj = Ok r ->
  dict_get "project_name" r = Some PNone
  /\ exists title,
       Soup.find proj "h3" (class_ "profile-section-card__title") = Some title
       /\ dict_get "role" r = Some (PStr (norm title)).
Proof.
  unfold project_item. intros H.
  destruct (Soup.find proj "h3" _) as [title|] eqn:Ht; [|discriminate].
  cbn [Soup.text_of bind] in H.
  destruct (Soup.find proj "span" _) as [dates|].
  - destruct (PyStr.split "-" _) as [|d0 [|d1 ds]]; [discriminate| |];
      find_cases; compute_dict; inversion H; subst; split;
      try reflexivity; exists title; split; reflexivity.
  - find_cases; compute_dict; inversion H; subst; split;
      try reflexivity; exists title; split; reflexivity.
Qed.

Ltac extractor_cases H :=
  repeat (compute_dict; match type of H with
    | context [Soup.text_of (Soup.find ?a ?b ?c)] =>
        destruct (Soup.find a b c) eqn:?; [|discriminate H]
    | context [match Soup.find ?a ?b ?c with _ => _ end] =>
        destruct (Soup.find a b c) eqn:?
    | context [PyStr.split ?a ?b] =>
        destruct (PyStr.split a b) as [|? [|? ?]]
    | context [Re.sub ?a ?b] => destruct (Re.sub a b) eqn:?
    end);
  compute_dict; try discriminate H; inversion H; subst; clear H.



(** The fields of an extracted experience item whose node is missing. *)
Lemma experience_item_absent (exp : Soup.node) (r : dict) :
  experience_item exp = Ok r ->
  (Soup.find exp "a" (class_ "profile-section-card__subtitle-link") = None ->
   dict_get "company" r = Some PNone /\ dict_get "company_link" r = Some PNone)
  /\ (Soup.find exp "span" (class_ "date-range") = None ->
      dict_get "start_date" r = Some PNone /\ dict_get "end_date" r = Some PNone)
  /\ (Soup.find exp "span" (class_ "date-range__duration") = None ->
      dict_get "duration" r = Some PNone)
  /\ (Soup.find exp "p" (class_ "experience-item__location") = None ->
      dict_get "location" r = Some PNone)
  /\ (Soup.find exp "p" (class_ "show-more-less-text__text--less") = None ->
      dict_get "description" r = Some PNone).
Proof.
  unfold experience_item. intros H.
  extractor_cases H;
    repeat split; intros; try congruence; try reflexivity;
    exfalso; eapply sub_none; eassumption.
Qed.

(** The fields of an extracted project item whose node is missing. *)
Lemma project_item_absent (proj : Soup.node) (r : dict) :
  project_item proj = Ok r ->
  (Soup.find proj "span" (class_ "date-range") = None ->
   dict_get "start_date" r = Some PNone /\ dict_get "end_date" r = Some PNone)
  /\ (Soup.find proj "p" (class_ "show-more-less-text__text--less") = None ->
      dict_get "description" r = Some PNone)
  /\ (Soup.find proj "a" (class_ "personal-project__button") = None ->
      dict_get "project_link" r = Some PNone).
Proof.
  unfold project_item. intros H.
  extractor_cases H;
    repeat split; intros; try congruence; try reflexivity.
Qed.

(** A certification item is always extracted; the fields whose node is
    missing are [None]. *)
Lemma certification_item_absent (certify : Soup.node) :
  exists r,
    certification_item certify = Ok r
    /\ (Soup.find certify "h3" (class_ "profile-section-card__title") = None ->
        dict_get "certification" r = Some PNone)
    /\ (Soup.find certify "h4" (class_ "profile-section-card__subtitle") = None ->
        dict_get "certified_by" r = Some PNone)
    /\ (Soup.find certify "div" (class_ "certifications__date-range") = None ->
        dict_get "issued_on" r = Some PNone)
    /\ (Soup.find certify "a" (class_ "certifications__button") = None ->
        dict_get "certificate_link" r = Some PNone).
Proof.
  unfold certification_item. eexists. split; [reflexivity|].
  find_cases; compute_dict;
    repeat split; intros; try congruence; try reflexivity.
Qed.

Lemma get_about_absent (about_soup : Soup.node) :
  Soup.find about_soup "p" None = None -> get_about about_soup = PNone.
Proof. unfold get_about. intros ->. reflexivity. Qed.

(** ** The rows of a section *)

Lemma for_each_ok (body : Soup.node -> result dict) (items : list Soup.node)
  (total rows : list pyval) :
  for_each body items total = Ok rows ->
  exists ds,
    rows = (total ++ map PDict ds)%list
    /\ Forall2 (fun x d => body x = Ok d) items ds.
Proof.
  revert total. induction items as [|x items IH]; intros total H; simpl in H.
  - inversion H. exists []. rewrite app_nil_r. split; [reflexivity | constructor].
  - destruct (body x) as [d|e] eqn:E; simpl in H; [|discriminate].
    destruct (IH _ H) as [ds [-> F]].
    exists (d :: ds). rewrite <- app_assoc. split; [reflexivity|].
    constructor; assumption.
Qed.

Lemma for_each_all (body : Soup.node -> result dict) (items : list Soup.node)
  (total : list pyval) :
  (forall x, is_ok (body x) = true) ->
  exists ds,
    for_each body items total = Ok (total ++ map PDict ds)%list
    /\ Forall2 (fun x d => body x = Ok d) items ds.
Proof.
  intros Hb. revert total.
  induction items as [|x items IH]; intros total; simpl.
  - exists []. rewrite app_nil_r. split; [reflexivity | constructor].
  - specialize (Hb x) as Hx. destruct (body x) as [d|e] eqn:E; [|discriminate].
    simpl. destruct (IH (total ++ [PDict d])%list) as [ds [-> F]].
    exists (d :: ds). rewrite <- app_assoc. split; [reflexivity|].
    constructor; assumption.
Qed.

Lemma rows_have_keys (body : Soup.node -> result dict) (ks : list string)
  (items : list Soup.node) (ds : list dict) :
  (forall x d, body x = Ok d -> keys d = ks) ->
  Forall2 (fun x d => body x = Ok d) items ds ->
  List.length (map PDict ds) = List.length items
  /\ Forall (has_keys ks) (map PDict ds).
Proof.
  intros Hk F. induction F as [|x d items ds Hx F [IHl IHf]]; simpl.
  - split; [reflexivity | constructor].
  - split; [rewrite IHl; reflexivity|].
    constructor; [exact (Hk x d Hx) | exact IHf].
Qed.

Lemma experience_item_keys (exp : Soup.node) (r : dict) :
  experience_item exp = Ok r -> keys r = experience_keys.
Proof.
  unfold experience_item. intros H. extractor_cases H; reflexivity.
Qed.

Lemma certification_item_keys (certify : Soup.node) (r : dict) :
  certification_item certify = Ok r -> keys r = certificate_keys.
Proof.
  unfold certification_item. intros H. extractor_cases H; reflexivity.
Qed.

(** X1.  When [get_experience] returns, it returns one record for each
    list item of class [experience-item], and every record has the eight
    keys of the source, in their order: an assignment never adds a
    key. *)
Theorem get_experience_rows (experience_soup : Soup.node) (rows : list pyval) :
  get_experience experience_soup = Ok rows ->
  List.length rows
  = List.length (Soup.find_all experience_soup "li" (class_ "experience-item"))
  /\ Forall (has_keys experience_keys) rows.
Proof.
  unfold get_experience. intros H.
  destruct (for_each_ok _ _ _ _ H) as [ds [-> F]]. simpl.
  exact (rows_have_keys experience_item experience_keys _ ds
           experience_item_keys F).
Qed.

Lemma get_experience_rows_witness :
  let soup :=
    Markup.section "experience"
      [ Markup.experience
          [Markup.title "Analyst"; Markup.el "span" "date-range" "2019-2021"];
        Markup.experience [Markup.title "Clerk"] ] in
  exists rows,
    get_experience soup = Ok rows
    /\ List.length rows = 2
    /\ Forall (has_keys experience_keys) rows.
Proof.
  eexists. split; [reflexivity|].
  apply (get_experience_rows
           (Markup.section "experience"
              [ Markup.experience
                  [Markup.title "Analyst";
                   Markup.el "span" "date-range" "2019-2021"];
                Markup.experience [Markup.title "Clerk"] ])).
  reflexivity.
Defined.

(** X2.  [get_certification] never fails: it returns one record for each
    list item of class [profile-section-card], whatever the item holds,
    and every record has the four keys of the source. *)
Theorem get_certification_rows (certifications_soup : Soup.node) :
  exists rows,
    get_certification certifications_soup = Ok rows
    /\ List.length rows
       = List.length
           (Soup.find_all certifications_soup "li" (class_ "profile-section-card"))
    /\ Forall (has_keys certificate_keys) rows.
Proof.
  unfold get_certification.
  destruct (for_each_all certification_item
              (Soup.find_all certifications_soup "li"
                 (class_ "profile-section-card")) [])
    as [ds [E F]]; [reflexivity|].
  exists (map PDict ds). split; [exact E|].
  exact (rows_have_keys certification_item certificate_keys _ ds
           certification_item_keys F).
Qed.

(** X3.  A list item without title heading makes [get_experience] fail,
    and likewise [get_projects]: the text of the heading is read without
    a test, and one failing item fails the section. *)
Theorem missing_title_fails :
  (forall experience_soup exp,
     In exp (Soup.find_all experience_soup "li" (class_ "experience-item")) ->
     Soup.find exp "h3" (class_ "profile-section-card__title") = None ->
     is_ok (get_experience experience_soup) = false)
  /\ (forall projects_soup proj,
        In proj (Soup.find_all projects_soup "li" (class_ "personal-project")) ->
        Soup.find proj "h3" (class_ "profile-section-card__title") = None ->
        is_ok (get_projects projects_soup) = false).
Proof.
  split; intros soup x Hin Hn.
  - unfold get_experience. apply (for_each_fails _ _ _ x Hin).
    unfold experience_item. rewrite Hn. reflexivity.
  - unfold get_projects. apply (for_each_fails _ _ _ x Hin).
    unfold project_item. rewrite Hn. reflexivity.
Qed.

Lemma missing_title_fails_witness :
  let dates := Markup.el "span" "date-range" "2019-2021" in
  is_ok (get_experience
           (Markup.section "experience"
              [Markup.experience [Markup.title "Analyst"];
               Markup.experience [dates]])) = false
  /\ is_ok (get_projects
              (Markup.section "projects" [Markup.project [dates]])) = false.
Proof.
  split.
  - apply (proj1 missing_title_fails _
             (Markup.experience [Markup.el "span" "date-range" "2019-2021"])).
    + simpl. right. left. reflexivity.
    + reflexivity.
  - apply (proj2 missing_title_fails _
             (Markup.project [Markup.el "span" "date-range" "2019-2021"])).
    + simpl. left. reflexivity.
    + reflexivity.
Defined.

(** X4.  An experience item with a duration span and no date-range span
    is not extracted: the end date is still [None] when the duration is
    to be deleted from it. *)
Theorem duration_without_date_range_fails (exp duration : Soup.node) :
  Soup.find exp "span" (class_ "date-range") = None ->
  Soup.find exp "span" (class_ "date-range__duration") = Some duration ->
  is_ok (experience_item exp) = false.
Proof.
  intros Hd Hu. destruct (experience_item exp) as [r|e] eqn:H; [|reflexivity].
  exfalso. unfold experience_item in H. rewrite Hd, Hu in H.
  extractor_cases H; eapply sub_none; eassumption.
Qed.

Lemma duration_without_date_range_fails_witness :
  let exp :=
    Markup.experience
      [Markup.title "Analyst"; Markup.el "span" "date-range__duration" "2 yrs"] in
  (Soup.find exp "span" (class_ "date-range") = None
   /\ Soup.find exp "span" (class_ "date-range__duration")
      = Some (Markup.el "span" "date-range__duration" "2 yrs"))
  /\ is_ok (experience_item exp) = false.
Proof.
  split; [split; reflexivity|].
  apply (duration_without_date_range_fails
           (Markup.experience
              [Markup.title "Analyst";
               Markup.el "span" "date-range__duration" "2 yrs"])
           (Markup.el "span" "date-range__duration" "2 yrs"));
    reflexivity.
Defined.

(** ** Dates *)

Lemma no_hyphen_forallb (s : string) :
  no_hyphen s = PyStr.forallb not_hyphen s.
Proof.
  unfold no_hyphen. induction s as [|c s IH]; [reflexivity|].
  rewrite contains_char, negb_orb, IH. cbn [PyStr.forallb].
  rewrite (Ascii.eqb_sym "-" c). reflexivity.
Qed.

Lemma split_segments (s : string) :
  Forall (fun w => PyStr.forallb not_hyphen w = true) (PyStr.split "-" s).
Proof.
  induction s as [|c s IH]; cbn [PyStr.split].
  - constructor; [reflexivity | constructor].
  - destruct (Ascii.eqb c "-") eqn:E.
    + constructor; [reflexivity | exact IH].
    + destruct (PyStr.split "-" s) as [|w ws].
      * constructor; [|constructor]. simpl. unfold not_hyphen. rewrite E.
        reflexivity.
      * inversion IH as [|? ? Hw Hws]; subst.
        constructor; [|exact Hws].
        cbn [PyStr.forallb]. unfold not_hyphen at 1. rewrite E. exact Hw.
Qed.

Lemma sub_delete_forallb (p : ascii -> bool) (items : list Re.item)
  (s : string) (skip : nat) :
  PyStr.forallb p s = true ->
  PyStr.forallb p (Re.sub_delete items skip s) = true.
Proof.
  revert skip. induction s as [|c s IH]; intros skip H; [reflexivity|].
  cbn [PyStr.forallb] in H. apply andb_true_iff in H. destruct H as [Hc Hs].
  cbn [Re.sub_delete].
  destruct skip as [|n]; [|apply IH, Hs].
  destruct (Re.match_items items (String c s)) as [r|].
  - destruct (String.length (String c s) - String.length r).
    + cbn [PyStr.forallb]. rewrite Hc. apply IH, Hs.
    + apply IH, Hs.
  - cbn [PyStr.forallb]. rewrite Hc. apply IH, Hs.
Qed.

Lemma sub_forallb (p : ascii -> bool) (pattern s e : string) :
  Re.sub pattern (Some s) = Ok e ->
  PyStr.forallb p s = true -> PyStr.forallb p e = true.
Proof.
  unfold Re.sub. destruct (Re.compile pattern) as [items|]; [|discriminate].
  simpl. intros H. inversion H. apply sub_delete_forallb.
Qed.

Ltac date_cases H :=
  repeat (compute_dict; match type of H with
    | context [Soup.text_of (Soup.find ?a ?b ?c)] =>
        destruct (Soup.find a b c) eqn:?; [|discriminate H]
    | context [match Soup.find ?a ?b ?c with _ => _ end] =>
        destruct (Soup.find a b c) eqn:?
    | context [PyStr.split ?a ?b] =>
        let F := fresh "F" in
        pose proof (split_segments b) as F;
        destruct (PyStr.split a b) as [|? [|? ?]]
    | context [Re.sub ?a ?b] => destruct (Re.sub a b) eqn:?
    end);
  compute_dict; try discriminate H; inversion H; subst; clear H.

Ltac segment_facts :=
  repeat match goal with
    | F : Forall _ (_ :: _) |- _ => inversion F; subst; clear F
    end.

(** X5.  The dates of an extracted experience or project item hold no
    hyphen: each is one segment of the date range, so of a date range
    with more than one hyphen the text after the second hyphen is lost,
    and deleting the duration brings no hyphen back. *)
Theorem dates_hold_no_hyphen (item : Soup.node) (r : dict) (d : string) :
  experience_item item = Ok r \/ project_item item = Ok r ->
  dict_get "start_date" r = Some (PStr d)
  \/ dict_get "end_date" r = Some (PStr d) ->
  no_hyphen d = true.
Proof.
  rewrite no_hyphen_forallb.
  intros [H|H] Hd.
  - unfold experience_item in H.
    date_cases H; segment_facts;
      destruct Hd as [Hd|Hd]; compute_dict; inversion Hd; subst;
      try assumption;
      try (eapply sub_forallb; eassumption);
      exfalso; eapply sub_none; eassumption.
  - unfold project_item in H.
    date_cases H; segment_facts;
      destruct Hd as [Hd|Hd]; compute_dict; inversion Hd; subst;
      assumption.
Qed.

Lemma dates_hold_no_hyphen_witness :
  let item :=
    Markup.project
      [Markup.title "Chat App"; Markup.el "span" "date-range" "Jan-2020 - Mar-2022"] in
  let r :=
    [ ("project_name", PNone); ("start_date", PStr "Jan");
      ("end_date", PStr "2020 "); ("description", PNone);
      ("project_link", PNone); ("role", PStr "Chat App") ] in
  (project_item item = Ok r /\ dict_get "end_date" r = Some (PStr "2020 "))
  /\ no_hyphen "2020 " = true.
Proof.
  split; [split; reflexivity|].
  exact (dates_hold_no_hyphen
           (Markup.project
              [Markup.title "Chat App";
               Markup.el "span" "date-range" "Jan-2020 - Mar-2022"])
           _ "2020 " (or_intror eq_refl) (or_intror eq_refl)).
Defined.

Lemma experience_item_end_date_witness :
  let duration := Markup.el "span" "date-range__duration" "2 yrs 3 mos" in
  let dates :=
    Soup.Tag "span" ["date-range"] []
      [Soup.Text "Jan 2020 - Mar 2022 "; duration] in
  let exp := Markup.experience [Markup.title "Engineer"; dates] in
  (Soup.find exp "h3" (class_ "profile-section-card__title")
   = Some (Markup.title "Engineer")
   /\ Soup.find exp "span" (class_ "date-range") = Some dates
   /\ PyStr.split "-" (norm dates) = ["Jan 2020 "; " Mar 2022 2 yrs 3 mos"]
   /\ Soup.find exp "span" (class_ "date-range__duration") = Some duration
   /\ PyStr.forallb plain (norm duration) = true)
  /\ exists r,
       experience_item exp = Ok r
       /\ dict_get "start_date" r = Some (PStr "Jan 2020 ")
       /\ dict_get "duration" r = Some (PStr "2 yrs 3 mos")
       /\ dict_get "end_date" r = Some (PStr " Mar 2022 ").
Proof.
  split; [repeat split|].
  exact (experience_item_end_date
           (Markup.experience
              [Markup.title "Engineer";
               Markup.date_range "Jan 2020 - Mar 2022 " "2 yrs 3 mos"])
           (Markup.title "Engineer")
           (Markup.date_range "Jan 2020 - Mar 2022 " "2 yrs 3 mos")
           (Markup.el "span" "date-range__duration" "2 yrs 3 mos")
           "Jan 2020 " " Mar 2022 2 yrs 3 mos" []
           eq_refl eq_refl eq_refl eq_refl eq_refl).
Defined.

(** ** The summary *)

Lemma replace_newline_kept (s : string) :
  PyStr.forallb (fun c => kept c || Ascii.eqb c "010") s = true ->
  PyStr.forallb kept (PyStr.replace_char "010" "." s) = true.
Proof.
  induction s as [|c s IH]; [reflexivity|].
  cbn [PyStr.forallb PyStr.replace_char]. intros H.
  apply andb_true_iff in H. destruct H as [Hc Hs].
  rewrite (IH Hs), andb_true_r.
  destruct (Ascii.eqb c "010"); [reflexivity|].
  rewrite orb_false_r in Hc. exact Hc.
Qed.

(** X7.  [get_about] never fails.  It is [None] when the section has no
    paragraph; otherwise it is a normalised text, which the normaliser
    leaves as it is.  When the paragraph is made of kept characters and
    line feeds, the summary is the paragraph with every line feed turned
    into a period, trimmed: no line is joined to the next. *)
Theorem get_about_normalised (about_soup : Soup.node) :
  match Soup.find about_soup "p" None with
  | None => get_about about_soup = PNone
  | Some p =>
      exists s,
        get_about about_soup = PStr s
        /\ PyStr.forallb kept s = true
        /\ extract_text_only (Str s) = s
        /\ (PyStr.forallb (fun c => kept c || Ascii.eqb c "010") (Soup.text p)
            = true ->
            s = PyStr.strip (PyStr.replace_char "010" "." (Soup.text p)))
  end.
Proof.
  unfold get_about. destruct (Soup.find about_soup "p" None) as [p|];
    [|reflexivity].
  eexists. split; [reflexivity|].
  split; [apply extract_text_only_kept|].
  split.
  - unfold extract_text_only at 1. unfold sub_regex.
    rewrite (filter_all kept _ (extract_text_only_kept _)).
    unfold extract_text_only, sub_regex. apply strip_idempotent.
  - intros H. unfold extract_text_only, sub_regex.
    rewrite (filter_all kept _ (replace_newline_kept _ H)). reflexivity.
Qed.

(** ** Items that are extracted *)

Lemma split_hyphen (s : string) :
  no_hyphen s = false ->
  exists d0 d1 ds, PyStr.split "-" s = d0 :: d1 :: ds.
Proof.
  unfold no_hyphen. intros H. apply negb_false_iff in H.
  induction s as [|c s IH]; [discriminate|].
  rewrite contains_char in H. cbn [PyStr.split].
  rewrite (Ascii.eqb_sym "-" c) in H.
  destruct (Ascii.eqb c "-") eqn:E.
  - destruct s as [|c' s'].
    + exists EmptyString, EmptyString, []. reflexivity.
    + destruct (PyStr.split "-" (String c' s')) as [|w ws] eqn:S.
      * cbn [PyStr.split] in S. destruct (Ascii.eqb c' "-"); [discriminate|].
        destruct (PyStr.split "-" s'); discriminate.
      * exists EmptyString, w, ws. reflexivity.
  - simpl in H. destruct (IH H) as (d0 & d1 & ds & S). rewrite S.
    exists (String c d0), d1, ds. reflexivity.
Qed.

Lemma split_nonempty (sep : ascii) (s : string) : PyStr.split sep s <> [].
Proof.
  destruct s as [|c s]; cbn [PyStr.split]; [discriminate|].
  destruct (Ascii.eqb c sep); [discriminate|].
  destruct (PyStr.split sep s); discriminate.
Qed.

(** An experience item with a title whose dates can be read is
    extracted. *)
Lemma experience_item_returns (exp title : Soup.node) :
  Soup.find exp "h3" (class_ "profile-section-card__title") = Some title ->
  dates_readable exp = true ->
  is_ok (experience_item exp) = true.
Proof.
  intros Ht Hr. unfold dates_readable in Hr. unfold experience_item.
  rewrite Ht. cbn [Soup.text_of bind].
  destruct (Soup.find exp "span" (class_ "date-range")) as [dates|];
    destruct (Soup.find exp "span" (class_ "date-range__duration"))
      as [duration|];
    try discriminate Hr.
  - apply andb_true_iff in Hr. destruct Hr as [Hn Hc].
    apply negb_true_iff in Hn.
    destruct (split_hyphen _ Hn) as (d0 & d1 & ds & S).
    fold (norm dates) (norm duration). rewrite S.
    find_cases; compute_dict; unfold Re.sub;
      destruct (Re.compile (norm duration)); try discriminate Hc; reflexivity.
  - apply negb_true_iff in Hr.
    destruct (split_hyphen _ Hr) as (d0 & d1 & ds & S).
    fold (norm dates). rewrite S.
    find_cases; reflexivity.
  - find_cases; reflexivity.
Qed.

(** A project item with a title is extracted. *)
Lemma project_item_returns (proj title : Soup.node) :
  Soup.find proj "h3" (class_ "profile-section-card__title") = Some title ->
  is_ok (project_item proj) = true.
Proof.
  intros Ht. unfold project_item. rewrite Ht. cbn [Soup.text_of bind].
  destruct (Soup.find proj "span" (class_ "date-range")) as [dates|].
  - pose proof (split_nonempty "-" (extract_text_only (Str (Soup.text dates))))
      as S.
    destruct (PyStr.split "-" (extract_text_only (Str (Soup.text dates))))
      as [|w [|w' ws]]; [contradiction | |]; find_cases; reflexivity.
  - find_cases; reflexivity.
Qed.

(** An item without title heading is not extracted. *)
Lemma item_without_title (item : Soup.node) :
  Soup.find item "h3" (class_ "profile-section-card__title") = None ->
  experience_item item = Raise AttributeError
  /\ project_item item = Raise AttributeError.
Proof.
  intros H. unfold experience_item, project_item. rewrite H.
  split; reflexivity.
Qed.

End Extractors.

(** * Properties of the crawl *)

Section Crawl.

Lemma quits_app (t : list event) (e : event) :
  quits (t ++ [e])%list = quits t + match e with Quit => 1 | _ => 0 end.
Proof.
  unfold quits. rewrite List.filter_app, List.length_app.
  destruct e; reflexivity.
Qed.

Lemma quiet_ret {A : Type} (a : A) : quiet (ret a).
Proof. intros t. reflexivity. Qed.

Lemma quiet_lift {A : Type} (r : result A) : quiet (lift r).
Proof. intros t. reflexivity. Qed.

Lemma quiet_emit (e : event) : e <> Quit -> quiet (emit e).
Proof.
  intros H t. unfold emit. simpl. rewrite quits_app.
  destruct e; try lia. congruence.
Qed.

Lemma quiet_bind {A B : Type} (m : M A) (k : A -> M B) :
  quiet m -> (forall a, quiet (k a)) -> quiet (mbind m k).
Proof.
  intros Hm Hk t. unfold mbind. specialize (Hm t).
  destruct (m t) as [[a|e] t'] eqn:E; simpl in *.
  - rewrite Hk. exact Hm.
  - exact Hm.
Qed.

Lemma quiet_try {A B : Type} (m : M A) (h : M B) (k : A -> M B) :
  quiet m -> quiet h -> (forall a, quiet (k a)) -> quiet (try_except m h k).
Proof.
  intros Hm Hh Hk t. unfold try_except. specialize (Hm t).
  destruct (m t) as [[a|e] t'] eqn:E; simpl in *.
  - rewrite Hk. exact Hm.
  - rewrite Hh. exact Hm.
Qed.

Ltac quiet_steps :=
  repeat first
    [ apply quiet_ret | apply quiet_lift
    | apply quiet_emit; discriminate
    | apply quiet_bind; [|intros ?]
    | apply quiet_try; [| |intros ?]
    | match goal with
      | |- quiet (let '(_, _) := ?x in _) => destruct x
      | |- quiet (if ?b then _ else _) => destruct b
      | |- quiet (match ?x with _ => _ end) => destruct x
      end ].

Lemma quiet_visit (role : string) (l : link) (total : list pyval) :
  quiet (visit role l total).
Proof. unfold visit, open_profile. quiet_steps. Qed.

Lemma quiet_for_links (role : string) (ls : list link) (total : list pyval) :
  quiet (for_links role ls total).
Proof.
  revert total. induction ls as [|l ls IH]; intros total; simpl.
  - apply quiet_ret.
  - apply quiet_bind; [apply quiet_visit | intros a; apply IH].
Qed.

Lemma quiet_turn (role : string) (p : results_page) (total : list pyval) :
  quiet (turn role p total).
Proof.
  unfold turn, check_next. quiet_steps. apply quiet_for_links.
Qed.

Lemma quiet_while (role : string) (pages : list results_page)
  (total : list pyval) : quiet (while_next_exists role pages total).
Proof.
  revert total. induction pages as [|p later IH]; intros total; simpl.
  - apply quiet_ret.
  - apply quiet_bind; [apply quiet_turn|].
    intros [[] total']; [apply IH | apply quiet_ret].
Qed.

(** X13.  [driver.quit()] is called once when the loop ends by itself and
    not at all when a failure leaves the function. *)
Lemma run_quits (role : string) (pages : list results_page) :
  match run role pages with
  | (Ok _, t) => quits t = 1
  | (Raise _, t) => quits t = 0
  end.
Proof.
  unfold run, get_data_from_google, mbind, emit. simpl.
  match goal with
  | |- context [while_next_exists role pages [] ?t] =>
      pose proof (quiet_while role pages [] t) as H;
      destruct (while_next_exists role pages [] t) as [[d|e] t']
  end; simpl in *.
  - rewrite !quits_app, H. reflexivity.
  - exact H.
Qed.

(** X17.  One turn of the loop on a page whose links are all visible:
    after the links, a missing next-page control raises, a hidden one ends
    the loop and a displayed one is followed. *)
Lemma while_next_exists_step (role : string) (p : results_page)
  (later : list results_page) (ls : list link) (total total' : list pyval)
  (t t' : list event) :
  wait_links p = Ok ls ->
  for_links role ls total t = (Ok total', t') ->
  while_next_exists role (p :: later) total t
  = match pnnext p with
    | None => (Raise NoSuchElementException, t')
    | Some e =>
        if is_displayed e
        then while_next_exists role later total' (t' ++ [ClickNext])%list
        else (Ok total', t')
    end.
Proof.
  intros Hw Hf. cbn [while_next_exists].
  unfold mbind, turn, try_except, lift. rewrite Hw.
  unfold mbind. rewrite Hf. unfold check_next, mbind, lift.
  destruct (pnnext p) as [e|]; simpl; [|reflexivity].
  destruct (is_displayed e); reflexivity.
Qed.

(** When the wait for the links runs out the loop ends and the profiles
    gathered so far are returned. *)
Lemma while_next_exists_timeout (role : string) (p : results_page)
  (later : list results_page) (total : list pyval) (t : list event) :
  is_ok (wait_links p) = false ->
  while_next_exists role (p :: later) total t = (Ok total, t).
Proof.
  intros Hw. cbn [while_next_exists].
  unfold mbind, turn, try_except, lift.
  destruct (wait_links p); [discriminate | reflexivity].
Qed.

(** ** Dictionaries *)

Lemma dict_get_set_same (k : string) (v : pyval) (d : dict) :
  dict_get k (dict_set k v d) = Some v.
Proof.
  induction d as [|[k' v'] d IH]; simpl.
  - rewrite String.eqb_refl. reflexivity.
  - destruct (String.eqb k k') eqn:E; simpl; rewrite E; [reflexivity | exact IH].
Qed.

Lemma dict_get_set_other (k k' : string) (v : pyval) (d : dict) :
  String.eqb k k' = false ->
  dict_get k (dict_set k' v d) = dict_get k d.
Proof.
  intros N. induction d as [|[k0 v0] d IH]; simpl.
  - rewrite N. reflexivity.
  - destruct (String.eqb k' k0) eqn:E; simpl.
    + apply String.eqb_eq in E. subst k0. rewrite N. reflexivity.
    + rewrite IH. reflexivity.
Qed.

Lemma keys_dict_set (k : string) (v : pyval) (d : dict) :
  In k (keys d) -> keys (dict_set k v d) = keys d.
Proof.
  unfold keys. induction d as [|[k0 v0] d IH]; simpl; [intros []|].
  intros H. destruct (String.eqb k k0) eqn:E; simpl; [reflexivity|].
  destruct H as [H|H].
  - subst k0. rewrite String.eqb_refl in E. discriminate.
  - rewrite (IH H). reflexivity.
Qed.

Lemma keys_dict_set_in (k k' : string) (v : pyval) (d : dict) :
  In k (keys d) -> In k (keys (dict_set k' v d)).
Proof.
  unfold keys. induction d as [|[k0 v0] d IH]; simpl; [intros []|].
  intros H. destruct (String.eqb k' k0); simpl; [exact H|].
  destruct H as [H|H]; [left; exact H | right; exact (IH H)].
Qed.

Ltac keys_unchanged :=
  repeat (rewrite keys_dict_set;
          [|repeat apply keys_dict_set_in; assumption]).

(** ** The basic details *)

Lemma split_head (sep : ascii) (s : string) :
  exists w ws,
    PyStr.split sep s = w :: ws
    /\ PyStr.contains (String sep EmptyString) w = false
    /\ (s = w \/ exists tail, s = w ++ String sep tail).
Proof.
  induction s as [|c s (w & ws & E & N & A)]; cbn [PyStr.split].
  - exists EmptyString, []. repeat split. left. reflexivity.
  - destruct (Ascii.eqb c sep) eqn:C.
    + apply Ascii.eqb_eq in C. subst c.
      exists EmptyString, (PyStr.split sep s). repeat split.
      right. exists s. reflexivity.
    + rewrite E. exists (String c w), ws.
      split; [reflexivity|].
      split; [rewrite contains_char, N, (Ascii.eqb_sym sep c), C; reflexivity|].
      destruct A as [A|[tail A]].
      * left. rewrite A. reflexivity.
      * right. exists tail. rewrite A. reflexivity.
Qed.

(** X8.  The location that [get_basic_details] stores is the text of the
    location node up to its first line feed: it holds no line feed, and
    the text is either the stored location itself or the stored
    location, a line feed and a remainder.  It is the empty string when
    the lookup fails. *)
Theorem location_is_first_line (user_details : page) :
  exists s,
    dict_get "user_location" (get_basic_details user_details) = Some (PStr s)
    /\ PyStr.contains newline s = false
    /\ match find_element user_details xpath_location with
       | Ok e => text e = s \/ exists tail, text e = s ++ String "010" tail
       | Raise _ => s = EmptyString
       end.
Proof.
  unfold get_basic_details, newline.
  destruct (find_element user_details xpath_location) as [e|err] eqn:E.
  - destruct (PyStr.contains (String "010" EmptyString) (text e)) eqn:C.
    + destruct (split_head "010" (text e)) as (w & ws & S & N & A).
      exists w. split; [cbn [text_or]; rewrite C, S; reflexivity|].
      split; [exact N|].
      destruct A as [A|A]; [left; exact A | right; exact A].
    + exists (text e). split; [cbn [text_or]; rewrite C; reflexivity|].
      split; [exact C|]. left. reflexivity.
  - exists EmptyString. repeat split.
Qed.

Lemma basic_name (user_details : page) :
  dict_get "user_name" (get_basic_details user_details)
  = Some (PTuple [PStr (text_or (find_element user_details xpath_name)
                          (fun e => extract_text_only (Str (text e))))]).
Proof. reflexivity. Qed.

(** X9.  [get_basic_details] always returns its four keys.  The name is
    a one-element tuple whose element is a normalised text, so reading
    element 0 of it never fails; of the four fields the name is the one
    that goes through the normaliser. *)
Theorem basic_details_shape (user_details : page) :
  keys (get_basic_details user_details) = basic_keys
  /\ exists s,
       dict_get "user_name" (get_basic_details user_details)
       = Some (PTuple [PStr s])
       /\ first_of (dict_get "user_name" (get_basic_details user_details))
          = Ok (PStr s)
       /\ PyStr.forallb kept s = true
       /\ extract_text_only (Str s) = s.
Proof.
  split; [reflexivity|].
  rewrite basic_name. eexists. split; [reflexivity|]. split; [reflexivity|].
  destruct (find_element user_details xpath_name) as [e|err]; cbn [text_or].
  - split; [apply extract_text_only_kept|].
    unfold extract_text_only at 1. unfold sub_regex.
    rewrite (filter_all kept _ (extract_text_only_kept _)).
    unfold extract_text_only, sub_regex. apply strip_idempotent.
  - split; reflexivity.
Qed.

(** ** The sections of a profile *)

Lemma route_section_frame (section : element) (user_data user_data' : dict) :
  route_section section user_data = Ok user_data' ->
  (In "about" (keys user_data) -> In "experience" (keys user_data) ->
   In "projects" (keys user_data) -> In "certifications" (keys user_data) ->
   keys user_data' = keys user_data)
  /\ forall k, section_key k = false ->
               dict_get k user_data' = dict_get k user_data.
Proof.
  unfold route_section.
  destruct (class_attribute section) as [name|]; [|discriminate].
  destruct (PyStr.contains "summary" name);
    destruct (PyStr.contains "experience" name);
    destruct (PyStr.contains "projects" name);
    destruct (PyStr.contains "certifications" name);
    try destruct (get_experience _); try destruct (get_projects _);
    try destruct (get_certification _);
    cbn [bind]; intros H; try discriminate H; inversion H; subst; clear H;
    (split;
     [ intros Ha He Hp Hc;
       keys_unchanged; reflexivity
     | intros k Hk; unfold section_key in Hk;
       repeat (apply orb_false_iff in Hk; destruct Hk as [Hk ?]);
       repeat (rewrite dict_get_set_other; [|assumption]); reflexivity ]).
Qed.

(** ** The rows of the result *)

Lemma for_sections_frame (sections : list element) (user_data user_data' : dict) :
  for_sections sections user_data = Ok user_data' ->
  keys user_data = profile_keys ->
  keys user_data' = profile_keys
  /\ forall k, section_key k = false ->
               dict_get k user_data' = dict_get k user_data.
Proof.
  revert user_data. induction sections as [|s sections IH]; intros ud H K.
  - inversion H. subst. split; [exact K | reflexivity].
  - cbn [for_sections] in H.
    destruct (route_section s ud) as [ud1|] eqn:R; [|discriminate].
    cbn [bind] in H.
    destruct (route_section_frame s ud ud1 R) as [K1 F1].
    assert (K1' : keys ud1 = profile_keys).
    { rewrite K1; [exact K| | | |]; rewrite K; simpl; tauto. }
    destruct (IH ud1 H K1') as [K2 F2].
    split; [exact K2|].
    intros k Hk. rewrite (F2 k Hk). apply F1, Hk.
Qed.

Lemma for_sections_unrecognised (sections : list element) (user_data : dict) :
  List.forallb unrecognised sections = true ->
  for_sections sections user_data = Ok user_data.
Proof.
  induction sections as [|s sections IH]; [reflexivity|].
  cbn [List.forallb for_sections]. intros H.
  apply andb_true_iff in H. destruct H as [Hs H].
  unfold unrecognised in Hs. unfold route_section.
  destruct (class_attribute s) as [name|]; [|discriminate].
  apply negb_true_iff in Hs.
  repeat (apply orb_false_iff in Hs; destruct Hs as [Hs ?]).
  repeat match goal with E : PyStr.contains _ name = false |- _ => rewrite E; clear E end.
  cbn [bind]. exact (IH H).
Qed.

(** X10.  Reading the sections of a profile changes the record under the
    keys [about], [experience], [projects] and [certifications] only and
    leaves its ten keys as they are; when the class of no section names
    one of the four kinds the record is not changed at all. *)
Theorem sections_change_their_keys_only (sections : list element)
  (user_data user_data' : dict) :
  for_sections sections user_data = Ok user_data' ->
  keys user_data = profile_keys ->
  keys user_data' = profile_keys
  /\ (forall k, section_key k = false ->
                dict_get k user_data' = dict_get k user_data)
  /\ (List.forallb unrecognised sections = true -> user_data' = user_data).
Proof.
  intros H K. destruct (for_sections_frame _ _ _ H K) as [K' F].
  split; [exact K'|]. split; [exact F|].
  intros U. rewrite (for_sections_unrecognised _ _ U) in H.
  inversion H. reflexivity.
Qed.

Lemma sections_change_their_keys_only_witness :
  let sections := find_elements Example.analyst xpath_sections in
  exists user_data',
    (for_sections sections Example.blank = Ok user_data'
     /\ keys Example.blank = profile_keys)
    /\ keys user_data' = profile_keys
    /\ dict_get "linkedin_profile" user_data' = Some PNone.
Proof.
  eexists. split; [split; reflexivity|].
  destruct (sections_change_their_keys_only
              (find_elements Example.analyst xpath_sections) Example.blank _
              eq_refl eq_refl) as [K [F _]].
  split; [exact K | exact (F "linkedin_profile" eq_refl)].
Defined.

Lemma visit_cases (role : string) (l : link) (total : list pyval)
  (t : list event) :
  (visit role l total t = (Ok total, t)
   \/ visit role l total t = (Ok total, (t ++ [Click (href l)])%list))
  \/ (exists row,
        visit role l total t
        = (Ok (total ++ [PDict row])%list, (t ++ [Click (href l); Back])%list)
        /\ keys row = profile_keys
        /\ dict_get "role" row = Some (PStr role)
        /\ dict_get "linkedin_profile" row = Some (of_option (href l)))
  \/ (exists err,
        visit role l total t = (Raise err, (t ++ [Click (href l)])%list)).
Proof.
  unfold visit, open_profile, try_except, mbind, emit, lift, ret.
  destruct (target l) as [profile|]; [|left; left; reflexivity].
  destruct (find_elements profile xpath_image) as [|img imgs];
    [left; right; reflexivity|].
  destruct (find_element profile xpath_details) as [details|];
    [|left; right; reflexivity].
  destruct (find_element profile xpath_sections) as [e|];
    [|left; right; reflexivity].
  cbn [bind].
  match goal with
  | |- context [if is_displayed e then for_sections ?s ?u else Ok ?u] =>
      set (ud0 := u);
      assert (K0 : keys ud0 = profile_keys) by reflexivity;
      assert (L0 : dict_get "linkedin_profile" ud0 = Some (of_option (href l)))
        by reflexivity;
      clearbody ud0;
      destruct (if is_displayed e then for_sections s ud0 else Ok ud0)
        as [ud1|err] eqn:S
  end.
  - right. left. rewrite basic_name. cbn [first_of].
    assert (K1 : keys ud1 = profile_keys
                 /\ dict_get "linkedin_profile" ud1 = Some (of_option (href l))).
    { destruct (is_displayed e).
      - destruct (for_sections_frame _ _ _ S K0) as [K F].
        split; [exact K|]. rewrite F; [exact L0 | reflexivity].
      - inversion S. subst. split; assumption. }
    destruct K1 as [K1 L1].
    eexists. split; [rewrite <- app_assoc; reflexivity|].
    assert (In "name" (keys ud1)) by (rewrite K1; simpl; tauto).
    assert (In "currently_doing" (keys ud1)) by (rewrite K1; simpl; tauto).
    assert (In "location" (keys ud1)) by (rewrite K1; simpl; tauto).
    assert (In "current_company" (keys ud1)) by (rewrite K1; simpl; tauto).
    assert (In "role" (keys ud1)) by (rewrite K1; simpl; tauto).
    split; [keys_unchanged; exact K1|].
    split; [apply dict_get_set_same|].
    repeat (rewrite dict_get_set_other; [|reflexivity]). exact L1.
  - right. right. exists err. reflexivity.
Qed.

Lemma backs_app (a b : list event) : backs (a ++ b) = backs a + backs b.
Proof. unfold backs. rewrite List.filter_app, List.length_app. reflexivity. Qed.

Lemma gathers_nothing (role : string) (total : list pyval) (t : list event) :
  gathers role total t (Ok total, t).
Proof.
  exists []. simpl. rewrite app_nil_r. repeat split.
  exists []. rewrite app_nil_r. repeat split. constructor.
Qed.

Lemma gathers_then (role : string) (total total1 : list pyval)
  (t t1 : list event) (out : result (list pyval) * list event) :
  gathers role total t (Ok total1, t1) ->
  gathers role total1 t1 out ->
  gathers role total t out.
Proof.
  intros (mid1 & E1 & L1 & more1 & M1 & B1 & F1) (mid2 & E2 & L2 & R2).
  simpl in *. subst t1 total1.
  exists (mid1 ++ mid2)%list. rewrite E2, <- app_assoc.
  split; [reflexivity|].
  split; [rewrite List.forallb_app, L1, L2; reflexivity|].
  destruct (fst out); [|exact I].
  destruct R2 as (more2 & M2 & B2 & F2).
  exists (more1 ++ more2)%list. rewrite M2, <- app_assoc.
  split; [reflexivity|].
  split; [rewrite backs_app, List.length_app, B1, B2; reflexivity|].
  apply Forall_app. split; assumption.
Qed.

Lemma visit_gathers (role : string) (l : link) (total : list pyval)
  (t : list event) : gathers role total t (visit role l total t).
Proof.
  destruct (visit_cases role l total t)
    as [[E|E]|[(row & E & K & R & _)|(err & E)]]; rewrite E.
  - apply gathers_nothing.
  - exists [Click (href l)]. repeat split.
    exists []. rewrite app_nil_r. repeat split. constructor.
  - exists [Click (href l); Back]. repeat split.
    exists [PDict row]. repeat split.
    constructor; [split; assumption | constructor].
  - exists [Click (href l)]. repeat split.
Qed.

Lemma for_links_gathers (role : string) (ls : list link) (total : list pyval)
  (t : list event) : gathers role total t (for_links role ls total t).
Proof.
  revert total t. induction ls as [|l ls IH]; intros total t.
  - apply gathers_nothing.
  - cbn [for_links]. unfold mbind.
    pose proof (visit_gathers role l total t) as V.
    destruct (visit role l total t) as [[total1|err] t1].
    + exact (gathers_then _ _ _ _ _ _ V (IH total1 t1)).
    + exact V.
Qed.

Lemma while_next_exists_gathers (role : string) (pages : list results_page)
  (total : list pyval) (t : list event) :
  gathers role total t (while_next_exists role pages total t).
Proof.
  revert total t. induction pages as [|p later IH]; intros total t.
  - apply gathers_nothing.
  - cbn [while_next_exists]. unfold mbind, turn, try_except, lift.
    destruct (wait_links p) as [ls|]; [|apply gathers_nothing].
    unfold mbind.
    pose proof (for_links_gathers role ls total t) as F.
    destruct (for_links role ls total t) as [[total1|err] t1]; [|exact F].
    unfold check_next, mbind, lift.
    destruct (pnnext p) as [e|]; cbn [bind].
    + destruct (is_displayed e); unfold emit, ret.
      * apply (gathers_then _ _ _ _ _ _ F).
        apply (gathers_then role total1 total1 t1 (t1 ++ [ClickNext])%list).
        -- exists [ClickNext]. repeat split.
           exists []. rewrite app_nil_r. repeat split. constructor.
        -- apply IH.
      * exact F.
    + destruct F as (mid & E & L & _). exists mid. repeat split; assumption.
Qed.

(** X11.  A visit that returns has either left the list of profiles as
    it was, without a call of [driver.back()], or added one row at its
    end and gone back once, after the click on the link.  The row has
    the ten keys of a profile, the searched role and the address of the
    link. *)
Theorem visit_appends_at_most_one (role : string) (l : link)
  (total total' : list pyval) (t t' : list event) :
  visit role l total t = (Ok total', t') ->
  (total' = total /\ backs t' = backs t)
  \/ exists row,
       total' = (total ++ [PDict row])%list
       /\ t' = (t ++ [Click (href l); Back])%list
       /\ keys row = profile_keys
       /\ dict_get "role" row = Some (PStr role)
       /\ dict_get "linkedin_profile" row = Some (of_option (href l)).
Proof.
  intros H.
  destruct (visit_cases role l total t)
    as [[E|E]|[(row & E & K & R & L)|(err & E)]];
    rewrite E in H; inversion H; subst.
  - left. split; reflexivity.
  - left. split; [reflexivity|]. rewrite backs_app.
    change (backs [Click (href l)]) with 0. lia.
  - right. exists row. repeat split; assumption.
Qed.

Lemma visit_appends_at_most_one_witness :
  let l := Example.follow "u1" Example.analyst in
  visit "data analyst" l [] []
  = (Ok [Example.analyst_row], [Click (Some "u1"); Back])
  /\ (([Example.analyst_row] = [] /\ backs [Click (Some "u1"); Back] = backs [])
      \/ exists row,
           [Example.analyst_row] = [PDict row]
           /\ [Click (Some "u1"); Back] = [Click (href l); Back]
           /\ keys row = profile_keys
           /\ dict_get "role" row = Some (PStr "data analyst")
           /\ dict_get "linkedin_profile" row = Some (of_option (href l))).
Proof.
  split; [vm_compute; reflexivity|].
  apply (visit_appends_at_most_one "data analyst"
           (Example.follow "u1" Example.analyst) [] _ [] _).
  vm_compute. reflexivity.
Defined.

Lemma str_app_assoc (a b c : string) : ((a ++ b) ++ c = a ++ (b ++ c))%string.
Proof. induction a as [|x a IH]; simpl; [|rewrite IH]; reflexivity. Qed.

(** X12.  The trace of a run.  A run that returns has opened the browser
    and the search address, then clicked and gone back in the loops,
    then quit and written the rows to the file named after the role;
    every row has the ten keys and the role, and there is one row for
    each call of [driver.back()].  A run that fails has done the same up
    to the failure: nothing is written. *)
Theorem run_trace (role : string) (pages : list results_page) :
  match run role pages with
  | (Ok _, t) =>
      exists mid rows,
        t = ([Chrome; Get (search_url_of role)] ++ mid
             ++ [Quit; ToExcel (role ++ "linkedProfiles.xlsx") rows])%list
        /\ List.forallb loop_event mid = true
        /\ backs mid = List.length rows
        /\ Forall (profile_row role) rows
  | (Raise _, t) =>
      exists mid,
        t = ([Chrome; Get (search_url_of role)] ++ mid)%list
        /\ List.forallb loop_event mid = true
  end.
Proof.
  unfold run, get_data_from_google, mbind, emit. cbn [app].
  match goal with
  | |- context [while_next_exists role pages [] ?t] =>
      assert (U : t = [Chrome; Get (search_url_of role)]);
      [|rewrite U;
        pose proof (while_next_exists_gathers role pages []
                      [Chrome; Get (search_url_of role)]) as G;
        destruct (while_next_exists role pages []
                    [Chrome; Get (search_url_of role)]) as [[rows|err] t']]
  end.
  - unfold search_url_of. cbn [app].
    rewrite str_app_assoc. reflexivity.
  - destruct G as (mid & E & L & more & M & B & F). simpl in *. subst.
    exists mid, more. rewrite <- !app_assoc. repeat split; assumption.
  - destruct G as (mid & E & L & _). simpl in *. subst.
    exists mid. split; [reflexivity | exact L].
Qed.

(** ** Failures *)

Lemma route_section_fails_alike (section : element) (ud ud' : dict) :
  is_ok (route_section section ud) = is_ok (route_section section ud').
Proof.
  unfold route_section.
  destruct (class_attribute section) as [name|]; [|reflexivity].
  destruct (PyStr.contains "summary" name);
    destruct (PyStr.contains "experience" name);
    destruct (PyStr.contains "projects" name);
    destruct (PyStr.contains "certifications" name);
    try destruct (get_experience _); try destruct (get_projects _);
    try destruct (get_certification _); reflexivity.
Qed.

Lemma for_sections_fails_alike (sections : list element) (ud ud' : dict) :
  is_ok (for_sections sections ud) = is_ok (for_sections sections ud').
Proof.
  revert ud ud'. induction sections as [|s sections IH]; intros ud ud';
    [reflexivity|].
  cbn [for_sections].
  pose proof (route_section_fails_alike s ud ud') as R.
  destruct (route_section s ud), (route_section s ud');
    try discriminate R; cbn [bind]; [apply IH | reflexivity].
Qed.

(** X16.  A failure of a section extractor is not caught by the link
    loop: when a profile opens, shows its sections and the reading of
    the sections fails, the loop ends with that failure after the click,
    without going back and without visiting the links that follow. *)
Theorem extractor_failure_ends_loop (role : string) (l : link)
  (rest : list link) (profile : page) (e : element) (total : list pyval)
  (t : list event) :
  target l = Some profile ->
  is_ok (find_element profile xpath_image) = true ->
  is_ok (find_element profile xpath_details) = true ->
  find_element profile xpath_sections = Ok e ->
  is_displayed e = true ->
  is_ok (for_sections (find_elements profile xpath_sections) []) = false ->
  exists err,
    for_links role (l :: rest) total t
    = (Raise err, (t ++ [Click (href l)])%list).
Proof.
  intros Ht Hi Hd Hs He Hf.
  cbn [for_links].
  unfold mbind at 1.
  unfold visit, open_profile, try_except, mbind, emit, lift, ret.
  rewrite Ht. unfold find_element in Hi.
  destruct (find_elements profile xpath_image); [discriminate|].
  destruct (find_element profile xpath_details); [|discriminate].
  rewrite Hs. cbn [bind]. rewrite He.
  match goal with
  | |- context [for_sections ?s ?u] =>
      rewrite (for_sections_fails_alike s [] u) in Hf;
      destruct (for_sections s u) as [ud|err]; [discriminate|]
  end.
  exists err. reflexivity.
Qed.

Lemma extractor_failure_ends_loop_witness :
  let l := Example.follow "u1" Example.since_2019 in
  let rest := [Example.follow "u2" Example.analyst] in
  (target l = Some Example.since_2019
   /\ is_ok (find_element Example.since_2019 xpath_image) = true
   /\ is_ok (find_element Example.since_2019 xpath_details) = true
   /\ is_ok (for_sections (find_elements Example.since_2019 xpath_sections) [])
      = false)
  /\ exists err,
       for_links "data analyst" (l :: rest) [] []
       = (Raise err, [Click (Some "u1")]).
Proof.
  split; [repeat split|].
  apply (extractor_failure_ends_loop "data analyst"
           (Example.follow "u1" Example.since_2019)
           [Example.follow "u2" Example.analyst] Example.since_2019
           _ [] [] eq_refl eq_refl eq_refl eq_refl eq_refl eq_refl).
Defined.

(** X15.  A link that cannot be followed is skipped without a trace;
    a profile whose picture or details block is missing is skipped after
    the click.  In both cases the list of profiles stays as it is,
    nothing is raised and [driver.back()] is not called. *)
Theorem navigation_failure_skips (role : string) (l : link)
  (total : list pyval) (t : list event) :
  match target l with
  | None => visit role l total t = (Ok total, t)
  | Some profile =>
      is_ok (find_element profile xpath_image)
      && is_ok (find_element profile xpath_details) = false ->
      visit role l total t = (Ok total, (t ++ [Click (href l)])%list)
  end.
Proof.
  unfold visit, open_profile, try_except, mbind, emit, lift, ret.
  destruct (target l) as [profile|]; [|reflexivity].
  unfold find_element at 1.
  destruct (find_elements profile xpath_image); [reflexivity|].
  destruct (find_element profile xpath_details); [discriminate | reflexivity].
Qed.

Lemma navigation_failure_skips_witness :
  let l := Example.follow "u2" Example.no_picture in
  is_ok (find_element Example.no_picture xpath_image)
  && is_ok (find_element Example.no_picture xpath_details) = false
  /\ visit "data analyst" l [] [] = (Ok [], [Click (Some "u2")]).
Proof.
  split; [reflexivity|].
  exact (navigation_failure_skips "data analyst"
           (Example.follow "u2" Example.no_picture) [] [] eq_refl).
Defined.

(** X14.  A first results page without links, or with a link that is not
    visible, ends the run at once: the wait runs out, the driver is quit
    and an empty table is written, whatever pages would follow. *)
Theorem no_visible_links_ends_run (role : string) (p : results_page)
  (later : list results_page) :
  links p = [] \/ List.forallb visible (links p) = false ->
  run role (p :: later)
  = (Ok tt,
     [ Chrome; Get (search_url_of role); Quit;
       ToExcel (role ++ "linkedProfiles.xlsx") [] ]).
Proof.
  intros H.
  assert (W : is_ok (wait_links p) = false).
  { unfold wait_links. destruct (links p) as [|x xs]; [reflexivity|].
    destruct H as [H|H]; [discriminate | rewrite H; reflexivity]. }
  unfold run, get_data_from_google, mbind, emit. cbn [app].
  rewrite (while_next_exists_timeout role p later [] _ W). cbn [app].
  unfold search_url_of. rewrite str_app_assoc. reflexivity.
Qed.

Lemma no_visible_links_ends_run_witness :
  (links Example.unseen = []
   \/ List.forallb visible (links Example.unseen) = false)
  /\ run "data analyst" [Example.unseen]
     = (Ok tt,
        [ Chrome; Get Example.search_url; Quit;
          ToExcel "data analystlinkedProfiles.xlsx" [] ]).
Proof.
  split; [right; reflexivity|].
  apply (no_visible_links_ends_run "data analyst" Example.unseen []).
  right. reflexivity.
Defined.

Lemma while_next_exists_step_witness :
  let p :=
    {| links := [Example.follow "u2" Example.no_picture];
       pnnext := Some (Example.shown "Next") |} in
  (wait_links p = Ok [Example.follow "u2" Example.no_picture]
   /\ for_links "data analyst" [Example.follow "u2" Example.no_picture] [] []
      = (Ok [], [Click (Some "u2")]))
  /\ while_next_exists "data analyst" [p] [] []
     = (Ok [], [Click (Some "u2"); ClickNext]).
Proof.
  split; [split; reflexivity|].
  exact (while_next_exists_step "data analyst"
           {| links := [Example.follow "u2" Example.no_picture];
              pnnext := Some (Example.shown "Next") |}
           [] [Example.follow "u2" Example.no_picture] [] [] []
           [Click (Some "u2")] eq_refl eq_refl).
Defined.

End Crawl.

(** * The claims *)

(** C1.  On the last result page the next-page control is missing.  The
    links of the page are processed first (the first profile is read and
    left again, the second is given up when its picture does not appear),
    then the lookup of the control raises [NoSuchElementException], which
    leaves [get_data_from_google]: the driver is not quit and nothing is
    written. *)
Theorem crawl_without_next_control_raises :
  run "data analyst"
    [ {| links := [ Example.follow "u1" Example.analyst;
                    Example.follow "u2" Example.no_picture ];
         pnnext := None |} ]
  = (Raise NoSuchElementException,
     [ Chrome; Get Example.search_url; Click (Some "u1"); Back;
       Click (Some "u2") ]).
Proof. vm_compute. reflexivity. Qed.

(** With a hidden control in place of the missing one the same run ends
    by itself and writes the one profile it has read. *)
Example crawl_with_hidden_next_control :
  run "data analyst"
    [ {| links := [ Example.follow "u1" Example.analyst;
                    Example.follow "u2" Example.no_picture ];
         pnnext := Some {| text := "Next"; is_displayed := false;
                           class_attribute := None;
                           outerHTML := Soup.Text "Next" |} |} ]
  = (Ok tt,
     [ Chrome; Get Example.search_url; Click (Some "u1"); Back;
       Click (Some "u2"); Quit;
       ToExcel "data analystlinkedProfiles.xlsx" [Example.analyst_row] ]).
Proof. vm_compute. reflexivity. Qed.

(** C2.  A profile whose experience entry has the date range
    [since 2019]: the [IndexError] of [get_experience] is not caught in the
    link loop and ends the run; [driver.quit()] has not been called. *)
Theorem failure_leaves_driver_running :
  let pages :=
    [ {| links := [ Example.follow "u1" Example.since_2019 ];
         pnnext := Some (Example.shown "Next") |} ] in
  run "data analyst" pages
  = (Raise IndexError, [ Chrome; Get Example.search_url; Click (Some "u1") ])
  /\ quits (snd (run "data analyst" pages)) = 0.
Proof. vm_compute. split; reflexivity. Qed.

(** C5.  An experience entry with the date range [2010 - Present] and the
    duration [10+ yrs].  The duration is used as a pattern, in which the
    plus sign repeats the zero before it, so it does not match its own
    text: the end date still holds the duration, where deleting the
    duration text would leave [Present]. *)
Theorem experience_duration_used_as_pattern :
  let exp :=
    Markup.experience
      [ Markup.title "Engineer";
        Markup.date_range "2010 - Present " "10+ yrs" ] in
  exists r,
    experience_item exp = Ok r
    /\ dict_get "duration" r = Some (PStr "10+ yrs")
    /\ dict_get "end_date" r = Some (PStr " Present 10+ yrs")
    /\ PyStr.contains "10+ yrs" " Present 10+ yrs" = true
    /\ str_remove "10+ yrs" " Present 10+ yrs" = " Present ".
Proof. vm_compute. eexists. repeat split. Qed.

(** A duration that is no pattern at all makes the extraction fail. *)
Example experience_duration_not_a_pattern :
  experience_item
    (Markup.experience
       [ Markup.title "Engineer"; Markup.date_range "2010 - Present " "+ 10 yrs" ])
  = Raise ReError.
Proof. reflexivity. Qed.

(** With a duration free of period and plus sign the end date is as the
    specification asks. *)
Example experience_duration_plain :
  exists r,
    experience_item
      (Markup.experience
         [ Markup.title "Engineer";
           Markup.date_range "Jan 2020 - Mar 2022 " "2 yrs 3 mos" ]) = Ok r
    /\ dict_get "start_date" r = Some (PStr "Jan 2020 ")
    /\ dict_get "end_date" r = Some (PStr " Mar 2022 ").
Proof. vm_compute. eexists. repeat split. Qed.

(** C6, as the code has it.  In [get_basic_details] a lookup that fails
    leaves the empty string in its field, and each field depends on its
    own lookup only.  In the section extractors an optional field whose
    node is missing is [None] in every record that is returned: the
    summary, the company, its link, the dates, the duration, the location
    and the description of an experience item, the dates, the description
    and the link of a project item, and all four fields of a
    certification item.  The title heading of an experience or project
    item is not optional: without it the item raises [AttributeError] and
    no record is returned; with it a project item is always returned, and
    an experience item is returned when its dates can be read. *)
Theorem absent_fields (user_details : page) :
  let basic_data := get_basic_details user_details in
  dict_get "user_name" basic_data
  = Some (PTuple [PStr match find_element user_details xpath_name with
                       | Ok e => extract_text_only (Str (text e))
                       | Raise _ => EmptyString
                       end])
  /\ dict_get "user_description" basic_data
     = Some (PStr match find_element user_details xpath_description with
                  | Ok e => text e
                  | Raise _ => EmptyString
                  end)
  /\ dict_get "user_location" basic_data
     = Some (PStr match find_element user_details xpath_location with
                  | Ok e =>
                      if PyStr.contains (String "010" EmptyString) (text e)
                      then hd EmptyString (PyStr.split "010" (text e))
                      else text e
                  | Raise _ => EmptyString
                  end)
  /\ dict_get "current_company" basic_data
     = Some (PStr match find_element user_details xpath_company with
                  | Ok e => text e
                  | Raise _ => EmptyString
                  end)
  /\ (forall about_soup,
        Soup.find about_soup "p" None = None -> get_about about_soup = PNone)
  /\ (forall exp r,
        experience_item exp = Ok r ->
        (Soup.find exp "a" (class_ "profile-section-card__subtitle-link") = None ->
         dict_get "company" r = Some PNone
         /\ dict_get "company_link" r = Some PNone)
        /\ (Soup.find exp "span" (class_ "date-range") = None ->
            dict_get "start_date" r = Some PNone
            /\ dict_get "end_date" r = Some PNone)
        /\ (Soup.find exp "span" (class_ "date-range__duration") = None ->
            dict_get "duration" r = Some PNone)
        /\ (Soup.find exp "p" (class_ "experience-item__location") = None ->
            dict_get "location" r = Some PNone)
        /\ (Soup.find exp "p" (class_ "show-more-less-text__text--less") = None ->
            dict_get "description" r = Some PNone))
  /\ (forall proj r,
        project_item proj = Ok r ->
        (Soup.find proj "span" (class_ "date-range") = None ->
         dict_get "start_date" r = Some PNone
         /\ dict_get "end_date" r = Some PNone)
        /\ (Soup.find proj "p" (class_ "show-more-less-text__text--less") = None ->
            dict_get "description" r = Some PNone)
        /\ (Soup.find proj "a" (class_ "personal-project__button") = None ->
            dict_get "project_link" r = Some PNone))
  /\ (forall item,
        Soup.find item "h3" (class_ "profile-section-card__title") = None ->
        experience_item item = Raise AttributeError
        /\ project_item item = Raise AttributeError)
  /\ (forall item title,
        Soup.find item "h3" (class_ "profile-section-card__title") = Some title ->
        is_ok (project_item item) = true
        /\ (dates_readable item = true -> is_ok (experience_item item) = true))
  /\ (forall certify,
        exists r,
          certification_item certify = Ok r
          /\ (Soup.find certify "h3" (class_ "profile-section-card__title") = None ->
              dict_get "certification" r = Some PNone)
          /\ (Soup.find certify "h4" (class_ "profile-section-card__subtitle") = None ->
              dict_get "certified_by" r = Some PNone)
          /\ (Soup.find certify "div" (class_ "certifications__date-range") = None ->
              dict_get "issued_on" r = Some PNone)
          /\ (Soup.find certify "a" (class_ "certifications__button") = None ->
              dict_get "certificate_link" r = Some PNone)).
Proof.
  cbv zeta. unfold get_basic_details.
  repeat apply conj; intros.
  - destruct (find_element user_details xpath_name); reflexivity.
  - destruct (find_element user_details xpath_description); reflexivity.
  - destruct (find_element user_details xpath_location); reflexivity.
  - destruct (find_element user_details xpath_company); reflexivity.
  - apply get_about_absent. assumption.
  - apply (experience_item_absent exp r). assumption.
  - apply (project_item_absent proj r). assumption.
  - apply item_without_title. assumption.
  - split.
    + exact (project_item_returns item title H).
    + exact (experience_item_returns item title H).
  - apply certification_item_absent.
Qed.

Lemma absent_fields_witness :
  (exists r,
     experience_item (Markup.experience [Markup.title "Analyst"]) = Ok r
     /\ dict_get "role" r = Some (PStr "Analyst")
     /\ dict_get "company" r = Some PNone
     /\ dict_get "start_date" r = Some PNone
     /\ dict_get "end_date" r = Some PNone
     /\ dict_get "duration" r = Some PNone
     /\ dict_get "location" r = Some PNone
     /\ dict_get "description" r = Some PNone)
  /\ is_ok (project_item (Markup.project [Markup.title "Chat App"])) = true
  /\ experience_item
       (Markup.experience [Markup.el "span" "date-range" "2019-2021"])
     = Raise AttributeError.
Proof.
  destruct (absent_fields []) as (_ & _ & _ & _ & _ & He & _ & Hn & Hr & _).
  split; [|split].
  - eexists. split; [reflexivity|]. split; [reflexivity|].
    destruct (He (Markup.experience [Markup.title "Analyst"]) _ eq_refl)
      as (Hc & Hd & Hu & Hl & Hp).
    repeat apply conj.
    + exact (proj1 (Hc eq_refl)).
    + exact (proj1 (Hd eq_refl)).
    + exact (proj2 (Hd eq_refl)).
    + exact (Hu eq_refl).
    + exact (Hl eq_refl).
    + exact (Hp eq_refl).
  - exact (proj1 (Hr (Markup.project [Markup.title "Chat App"])
                     (Markup.title "Chat App") eq_refl)).
  - exact (proj1 (Hn (Markup.experience
                        [Markup.el "span" "date-range" "2019-2021"]) eq_refl)).
Defined.


(** C6, as the specification words it, fails on a profile page without
    any of the four nodes: every field of the basic data is the empty
    string, not [None], and so are the fields of the profile row. *)
Lemma basic_details_empty_not_absent :
  get_basic_details []
  = [ ("user_name", PTuple [PStr EmptyString]);
      ("user_description", PStr EmptyString);
      ("user_location", PStr EmptyString);
      ("current_company", PStr EmptyString) ]
  /\ dict_get "user_description" (get_basic_details []) <> Some PNone
  /\ dict_get "user_location" (get_basic_details []) <> Some PNone
  /\ dict_get "current_company" (get_basic_details []) <> Some PNone
  /\ first_of (dict_get "user_name" (get_basic_details [])) <> Ok PNone.
Proof. vm_compute. repeat split; discriminate. Qed.




(** Where the first content section is found but not displayed the check
    does not fail: the profile is appended, without sections. *)
Example sections_hidden_keeps_profile :
  let hidden :=
    {| text := EmptyString; is_displayed := false;
       class_attribute := Some "summary"; outerHTML := Soup.Text "x" |} in
  let l := Example.follow "u4" ((xpath_sections, hidden) :: Example.no_sections) in
  exists row,
    visit "data analyst" l [] [] = (Ok [PDict row], [Click (Some "u4"); Back])
    /\ dict_get "name" row = Some (PStr "Cy")
    /\ dict_get "about" row = Some PNone.
Proof. vm_compute. eexists. repeat split. Qed.

(** C8.  A project entry with the title [Chat App]: the record is
    returned with [project_name] still [None]; the title is stored under
    a sixth key, [role]. *)
Theorem project_title_stored_as_role :
  project_item (Markup.project [Markup.title "Chat App"])
  = Ok [ ("project_name", PNone); ("start_date", PNone); ("end_date", PNone);
         ("description", PNone); ("project_link", PNone);
         ("role", PStr "Chat App") ].
Proof. reflexivity. Qed.



Example description_collapsed_alone :
  exists r,
    project_item
      (Markup.project
         [ Markup.title "Chat App";
           Markup.el "p" "show-more-less-text__text--less" "A chat app" ]) = Ok r
    /\ dict_get "description" r = Some (PStr "A chat app").
Proof. eexists. split; reflexivity. Qed.

(** C10.  In an experience section, an item whose date range has no
    hyphen makes [get_experience] fail, whatever the other items are; an
    item with a title, a date range of at least two segments and no
    duration gets the first segment as start date and the second as end
    date.  A project item with a title and a date range without hyphen is
    extracted, with the whole text as start date and no end date. *)
Theorem date_range_without_hyphen :
  (forall experience_soup exp dates,
     In exp (Soup.find_all experience_soup "li" (class_ "experience-item")) ->
     Soup.find exp "span" (class_ "date-range") = Some dates ->
     no_hyphen (norm dates) = true ->
     is_ok (get_experience experience_soup) = false)
  /\ (forall exp title dates d0 d1 ds,
        Soup.find exp "h3" (class_ "profile-section-card__title") = Some title ->
        Soup.find exp "span" (class_ "date-range") = Some dates ->
        PyStr.split "-" (norm dates) = d0 :: d1 :: ds ->
        Soup.find exp "span" (class_ "date-range__duration") = None ->
        exists r,
          experience_item exp = Ok r
          /\ dict_get "start_date" r = Some (PStr d0)
          /\ dict_get "end_date" r = Some (PStr d1))
  /\ (forall proj title dates,
        Soup.find proj "h3" (class_ "profile-section-card__title") = Some title ->
        Soup.find proj "span" (class_ "date-range") = Some dates ->
        no_hyphen (norm dates) = true ->
        exists r,
          project_item proj = Ok r
          /\ dict_get "start_date" r = Some (PStr (norm dates))
          /\ dict_get "end_date" r = Some PNone).
Proof.
  repeat apply conj.
  - intros soup exp dates Hin Hd Hn. unfold get_experience.
    apply (for_each_fails experience_item _ _ exp Hin).
    exact (experience_item_no_hyphen exp dates Hd Hn).
  - exact experience_item_dates.
  - exact project_item_no_hyphen.
Qed.

Lemma date_range_without_hyphen_witness :
  let dates := Markup.el "span" "date-range" "since 2019" in
  let exp := Markup.experience [Markup.title "Analyst"; dates] in
  let soup := Markup.section "experience" [Markup.experience [Markup.title "Clerk"]; exp] in
  let proj := Markup.project [Markup.title "Chat App"; dates] in
  is_ok (get_experience soup) = false
  /\ exists r,
       project_item proj = Ok r
       /\ dict_get "start_date" r = Some (PStr "since 2019")
       /\ dict_get "end_date" r = Some PNone.
Proof.
  split.
  - apply (proj1 date_range_without_hyphen
             (Markup.section "experience"
                [ Markup.experience [Markup.title "Clerk"];
                  Markup.experience
                    [ Markup.title "Analyst";
                      Markup.el "span" "date-range" "since 2019" ] ])
             (Markup.experience
                [ Markup.title "Analyst";
                  Markup.el "span" "date-range" "since 2019" ])
             (Markup.el "span" "date-range" "since 2019")).
    + simpl. right. left. reflexivity.
    + reflexivity.
    + reflexivity.
  - apply (proj2 (proj2 date_range_without_hyphen)
             (Markup.project
                [ Markup.title "Chat App";
                  Markup.el "span" "date-range" "since 2019" ])
             (Markup.title "Chat App")
             (Markup.el "span" "date-range" "since 2019"));
      reflexivity.
Defined.
